(** * QuickCart transaction cleaning: a shallow embedding of
      [src/clean_transactions.py] and the properties of its stages.

    The script reads raw JSON events, extracts ten fields per event
    ([getting_relevant_data]), loads them in a pandas DataFrame and runs
    [clean_transactions], [normalize_amount], [extract_flags] and the filter
    chain [remove_test_transactions] .. [fill_na_flags] (lines 28-150).
    Reading the file, the archive in MongoDB, the CSV export and the
    [print] statements are left out.

    Modelling conventions.
    - Python values read by [json.loads] are the type [json]; JSON floats are
      left out.
    - Python strings are [string]s of ASCII characters; the regex class [\d]
      is the ten characters 0..9.
    - A Python exception is a value of [exn]; code that may raise lives in
      [py_result]; code that also writes to the log file returns the log
      records it appended ([logged]).
    - The DataFrame is a list of rows, each with its index label.  Cells are
      the values of the TransactionRecord data model: a text cell (the raw
      amount is one) is a [str] or [None], the flags cell is a list of [str],
      a [str] or [None].  Columns holding only such values have dtype
      [object], so pandas keeps the Python values as they are, and
      [astype(str)] is [str(value)] cell by cell (pandas 1.x and 2.x).  A
      dataset with another value in an extracted field is outside the model:
      [main] is [None] there.
    - [float64] values are [spec_float] at precision 53 and [emax] 1024, with
      the operations of the IEEE 754 specification of the Standard Library;
      [float(s)] is the correctly rounded value of the decimal numeral. *)

From Stdlib Require Import String Ascii List ZArith Bool Lia SpecFloat.
From Stdlib Require Import DecimalString Sorted.
Import ListNotations.

Set Implicit Arguments.

Local Open Scope list_scope.
Local Open Scope string_scope.

(* ===================================================================== *)
(** * Python values, exceptions and the log *)
(* ===================================================================== *)

Local Set Warnings "-register-all".

(** The values [json.loads] builds.  A [dict] is the list of its bindings;
    [dict_get] finds the binding of a key. *)
Inductive json : Type :=
| JNull
| JBool (b : bool)
| JInt (n : Z)
| JStr (s : string)
| JList (xs : list json)
| JObj (kv : list (string * json)).

(** [type(v).__name__] *)
Definition type_name (v : json) : string :=
  match v with
  | JNull => "NoneType"
  | JBool _ => "bool"
  | JInt _ => "int"
  | JStr _ => "str"
  | JList _ => "list"
  | JObj _ => "dict"
  end.

Inductive exn : Type :=
| AttributeError (msg : string)
| ValueError (msg : string).

(** [str(e)] *)
Definition exn_str (e : exn) : string :=
  match e with
  | AttributeError msg => msg
  | ValueError msg => msg
  end.

Inductive py_result (A : Type) : Type :=
| Ok (a : A)
| Raise (e : exn).
Arguments Ok {A} a.
Arguments Raise {A} e.

Definition bind_result {A B : Type} (m : py_result A) (k : A -> py_result B)
  : py_result B :=
  match m with
  | Ok a => k a
  | Raise e => Raise e
  end.

Declare Scope py_scope.
Delimit Scope py_scope with py.
Notation "x <- m ;; k" := (bind_result m (fun x => k))
  (at level 61, m at next level, right associativity) : py_scope.

Inductive levelname : Type := INFO | WARNING | ERROR.

(** One line of [logs/clean_transactions.log], without its timestamp. *)
Definition log_record : Type := (levelname * string)%type.

(** A computation that appends to the log: its outcome and the records it
    wrote, oldest first. *)
Definition logged (A : Type) : Type := (py_result A * list log_record)%type.

Definition ret_logged {A : Type} (a : A) : logged A := (Ok a, []).

Definition bind_logged {A B : Type} (m : logged A) (k : A -> logged B)
  : logged B :=
  match m with
  | (Ok a, l1) => let (r, l2) := k a in (r, (l1 ++ l2)%list)
  | (Raise e, l1) => (Raise e, l1)
  end.

Definition logging (lvl : levelname) (msg : string) : logged unit :=
  (Ok tt, [(lvl, msg)]).

Definition lift_result {A : Type} (m : py_result A) : logged A := (m, []).

Declare Scope logged_scope.
Delimit Scope logged_scope with logged.
Notation "x <~ m ;; k" := (bind_logged m (fun x => k))
  (at level 61, m at next level, right associativity) : logged_scope.
Notation "m ;;; k" := (bind_logged m (fun _ => k))
  (at level 61, right associativity) : logged_scope.

(** The outcome of a logged computation, the log put aside. *)
Definition outcome {A : Type} (m : logged A) : py_result A := fst m.

(* ===================================================================== *)
(** * Field extraction: [getting_relevant_data] *)
(* ===================================================================== *)

Fixpoint dict_get (kv : list (string * json)) (key : string) : option json :=
  match kv with
  | [] => None
  | (k, v) :: rest => if String.eqb k key then Some v else dict_get rest key
  end.

(** [v.get(key, default)]: only a [dict] has the method; on any other value
    the attribute lookup raises. *)
Definition py_get (v : json) (key : string) (default : json) : py_result json :=
  match v with
  | JObj kv =>
      Ok (match dict_get kv key with Some x => x | None => default end)
  | _ =>
      Raise (AttributeError
               ("'" ++ type_name v ++ "' object has no attribute 'get'"))
  end.

(** [record.get(k1, {}).get(k2, default)] *)
Definition get2 (record : json) (k1 k2 : string) (default : json)
  : py_result json :=
  (a <- py_get record k1 (JObj []) ;;
   py_get a k2 default)%py.

(** [record.get(k1, {}).get(k2, {}).get(k3, default)] *)
Definition get3 (record : json) (k1 k2 k3 : string) (default : json)
  : py_result json :=
  (a <- py_get record k1 (JObj []) ;;
   b <- py_get a k2 (JObj []) ;;
   py_get b k3 default)%py.

(** The dict built for one retained event (lines 35-46). *)
Module RelevantData.
Record t : Type := mk {
  order_id : json;
  customer_email : json;
  payment_id : json;
  amount : json;
  currency : json;
  created_at : json;
  flags : json;
  payment_ref : json;
  payment_provider : json;
  payment_status : json
}.
End RelevantData.

(** The dict display of lines 35-46; its entries are evaluated in order. *)
Definition relevant_data_of (record : json) : py_result RelevantData.t :=
  (order_id <- get3 record "entity" "order" "id" JNull ;;
   customer_email <- get3 record "entity" "customer" "email" JNull ;;
   payment_id <- get3 record "entity" "payment" "id" JNull ;;
   amount <- get2 record "payload" "Amount" JNull ;;
   currency <- get3 record "entity" "payload" "Currency" (JStr "USD") ;;
   created_at <- get2 record "event" "ts" JNull ;;
   flags <- get2 record "payload" "flags" (JList []) ;;
   payment_ref <- get3 record "entity" "payment" "provider_ref" JNull ;;
   payment_provider <- get3 record "entity" "payment" "provider" JNull ;;
   payment_status <- get2 record "payload" "status" JNull ;;
   Ok (RelevantData.mk order_id customer_email payment_id amount currency
         created_at flags payment_ref payment_provider payment_status))%py.

(** [event_type == 'heartbeat'] *)
Definition is_heartbeat (event_type : json) : bool :=
  match event_type with
  | JStr s => String.eqb s "heartbeat"
  | _ => false
  end.

(** The body of the [for] loop on one record: [None] is [continue]. *)
Definition extract_one (record : json) : py_result (option RelevantData.t) :=
  (event_type <- get2 record "event" "type" JNull ;;
   if is_heartbeat event_type then Ok None
   else (relevant_data <- relevant_data_of record ;; Ok (Some relevant_data)))%py.

(** The [for] loop of lines 31-47, [relevant_datafile] being the list built
    so far. *)
Fixpoint extract_loop (data : list json) (relevant_datafile : list RelevantData.t)
  : py_result (list RelevantData.t) :=
  match data with
  | [] => Ok relevant_datafile
  | record :: rest =>
      (r <- extract_one record ;;
       match r with
       | None => extract_loop rest relevant_datafile
       | Some relevant_data =>
           extract_loop rest (relevant_datafile ++ [relevant_data])%list
       end)%py
  end.

(** [getting_relevant_data]: the [try] block returns the list; the [except]
    branch logs and falls off the end of the function, which returns
    [None]. *)
Definition getting_relevant_data (data : list json)
  : option (list RelevantData.t) * list log_record :=
  match extract_loop data [] with
  | Ok relevant_datafile => (Some relevant_datafile, [])
  | Raise e => (None, [(ERROR, "Error extracting relevant data: " ++ exn_str e)])
  end.

(* ===================================================================== *)
(** * Strings *)
(* ===================================================================== *)

(** [sub in s], also the regex search of a pattern made of letters only. *)
Fixpoint contains (sub s : string) : bool :=
  String.prefix sub s
  || match s with
     | EmptyString => false
     | String _ s' => contains sub s'
     end.

(** The characters a string keeps under [re.sub(r'[^\d.]', '', s)]. *)
Definition is_digit (c : ascii) : bool :=
  let n := nat_of_ascii c in (48 <=? n)%nat && (n <=? 57)%nat.

Definition is_numeric_char (c : ascii) : bool :=
  is_digit c || Ascii.eqb c ".".

Fixpoint str_filter (keep : ascii -> bool) (s : string) : string :=
  match s with
  | EmptyString => EmptyString
  | String c s' =>
      if keep c then String c (str_filter keep s') else str_filter keep s'
  end.

(** [Series.str.replace(r'[^\d.]', '', regex=True)] on one cell *)
Definition strip_non_numeric (s : string) : string :=
  str_filter is_numeric_char s.

(** ASCII white space, as [str.strip()] sees it. *)
Definition is_space (c : ascii) : bool :=
  let n := nat_of_ascii c in
  ((9 <=? n)%nat && (n <=? 13)%nat) || ((28 <=? n)%nat && (n <=? 32)%nat).

Fixpoint lstrip (s : string) : string :=
  match s with
  | EmptyString => EmptyString
  | String c s' => if is_space c then lstrip s' else s
  end.

Fixpoint rstrip (s : string) : string :=
  match s with
  | EmptyString => EmptyString
  | String c s' =>
      match rstrip s' with
      | EmptyString => if is_space c then EmptyString else String c EmptyString
      | t => String c t
      end
  end.

(** [s.strip()] *)
Definition str_strip (s : string) : string := rstrip (lstrip s).

Fixpoint str_forallb (p : ascii -> bool) (s : string) : bool :=
  match s with
  | EmptyString => true
  | String c s' => p c && str_forallb p s'
  end.

(** [sep.join(xs)] *)
Definition join (sep : string) (xs : list string) : string :=
  String.concat sep xs.

(** [str(n)] for a count *)
Definition nat_str (n : nat) : string :=
  NilEmpty.string_of_uint (Nat.to_uint n).

(* ===================================================================== *)
(** * float64 *)
(* ===================================================================== *)

Definition float64 : Type := spec_float.

Definition prec : Z := 53.
Definition emax : Z := 1024.

Definition nan : float64 := S754_nan.
Definition zero : float64 := S754_zero false.

(** An integer as an unrounded binary number. *)
Definition exact_of_Z (n : Z) : spec_float :=
  match n with
  | Z0 => S754_zero false
  | Zpos p => S754_finite false p 0
  | Zneg p => S754_finite true p 0
  end.

(** The float64 nearest to [n], ties to even: Python's [float(n)]. *)
Definition float_of_Z (n : Z) : float64 :=
  binary_normalize prec emax n 0 false.

(** [x / y] on float64 *)
Definition truediv (x y : float64) : float64 := SFdiv prec emax x y.

(** The float64 nearest to [m / 10^k], ties to even: the value Python's
    [float] gives the decimal numeral whose digits are those of [m], the last
    [k] of them after the point.  The quotient of the two exact integers is
    rounded once. *)
Definition float_of_decimal (m : Z) (k : nat) : float64 :=
  SFdiv prec emax (exact_of_Z m) (exact_of_Z (10 ^ Z.of_nat k)).

(** [x > 0], [x == 0] and [pd.isna(x)] on a float64 cell *)
Definition gt_zero (x : float64) : bool := SFltb zero x.
Definition eq_zero (x : float64) : bool := SFeqb x zero.
Definition isnan (x : float64) : bool :=
  match x with S754_nan => true | _ => false end.

(** The value of the digits of [s], most significant first. *)
Definition digit_value (c : ascii) : Z := Z.of_nat (nat_of_ascii c) - 48.

Fixpoint digits_value_from (acc : Z) (s : string) : Z :=
  match s with
  | EmptyString => acc
  | String c s' => digits_value_from (10 * acc + digit_value c) s'
  end.

Definition digits_value (s : string) : Z := digits_value_from 0 s.

(** [s] cut at its first point: what is before, and what is after when there
    is a point. *)
Fixpoint split_point (s : string) : string * option string :=
  match s with
  | EmptyString => (EmptyString, None)
  | String c s' =>
      if Ascii.eqb c "." then (EmptyString, Some s')
      else let (a, b) := split_point s' in (String c a, b)
  end.

(** [float(s)] for a string [s] of digits and points, the only strings the
    stripping of [normalize_amount] leaves: [s] is a numeral when it has at
    most one point and at least one digit; any other such string raises
    [ValueError]. *)
Definition py_float (s : string) : py_result float64 :=
  let bad := Raise (ValueError
                      ("could not convert string to float: '" ++ s ++ "'")) in
  match split_point s with
  | (ip, None) =>
      if str_forallb is_digit ip && negb (String.eqb ip EmptyString)
      then Ok (float_of_decimal (digits_value ip) 0)
      else bad
  | (ip, Some fp) =>
      if str_forallb is_digit ip && str_forallb is_digit fp
         && negb (String.eqb (ip ++ fp) EmptyString)
      then Ok (float_of_decimal (digits_value (ip ++ fp)) (String.length fp))
      else bad
  end.

(* ===================================================================== *)
(** * The DataFrame *)
(* ===================================================================== *)

(** A text cell of an [object] column: [None] or a [str]. *)
Definition cell : Type := option string.

(** The flags cell: [None], a [str], or a list of [str]. *)
Inductive flags_cell : Type :=
| FlagsNone
| FlagsStr (s : string)
| FlagsList (xs : list string).

(** A row of the frame built from the extracted dicts: ten columns. *)
Record TransactionRecord : Type := mkTransactionRecord {
  order_id : cell;
  customer_email : cell;
  payment_id : cell;
  amount : cell;
  currency : cell;
  created_at : cell;
  flags : flags_cell;
  payment_ref : cell;
  payment_provider : cell;
  payment_status : cell
}.

(** A row once [normalize_amount] has added the [amount_usd] column. *)
Record CleanedRecord : Type := mkCleanedRecord {
  fields : TransactionRecord;
  amount_usd : float64
}.

(** A frame with rows of type [R]: each row with its index label. *)
Definition DataFrame (R : Type) : Type := list (nat * R).

(** [df.shape[0]] *)
Definition n_rows {R : Type} (df : DataFrame R) : nat := List.length df.

(** Boolean indexing [df[mask]], the mask being a function of the row. *)
Definition where_ {R : Type} (mask : R -> bool) (df : DataFrame R) : DataFrame R :=
  filter (fun ir => mask (snd ir)) df.

(** [df[mask].index] *)
Definition index_where {R : Type} (mask : R -> bool) (df : DataFrame R) : list nat :=
  map fst (where_ mask df).

(** [df.drop(labels)]: every row whose label is listed goes. *)
Definition drop {R : Type} (labels : list nat) (df : DataFrame R) : DataFrame R :=
  filter (fun ir => negb (existsb (Nat.eqb (fst ir)) labels)) df.

(** [mask.any()] *)
Definition any {R : Type} (mask : R -> bool) (df : DataFrame R) : bool :=
  existsb (fun ir => mask (snd ir)) df.

(** [df[mask]] for a mask given as a column of booleans. *)
Definition select {R : Type} (mask : list bool) (df : DataFrame R) : DataFrame R :=
  map snd (filter fst (combine mask df)).

Definition isnull (c : cell) : bool :=
  match c with None => true | Some _ => false end.

Definition flags_isnull (c : flags_cell) : bool :=
  match c with FlagsNone => true | _ => false end.

(** ** Building the frame: [pd.DataFrame(relevant_datafile)] *)

(** A value of the extracted dict as a text cell; [None] when the value is
    not of the data model (neither [null] nor a string). *)
Definition cell_of_json (v : json) : option cell :=
  match v with
  | JNull => Some None
  | JStr s => Some (Some s)
  | _ => None
  end.

Fixpoint strings_of_json (xs : list json) : option (list string) :=
  match xs with
  | [] => Some []
  | JStr s :: rest =>
      match strings_of_json rest with
      | Some l => Some (s :: l)
      | None => None
      end
  | _ :: _ => None
  end.

Definition flags_of_json (v : json) : option flags_cell :=
  match v with
  | JNull => Some FlagsNone
  | JStr s => Some (FlagsStr s)
  | JList xs =>
      match strings_of_json xs with
      | Some l => Some (FlagsList l)
      | None => None
      end
  | _ => None
  end.

Definition opt_bind {A B : Type} (m : option A) (k : A -> option B) : option B :=
  match m with Some a => k a | None => None end.

Definition row_of_dict (d : RelevantData.t) : option TransactionRecord :=
  opt_bind (cell_of_json (RelevantData.order_id d)) (fun c1 =>
  opt_bind (cell_of_json (RelevantData.customer_email d)) (fun c2 =>
  opt_bind (cell_of_json (RelevantData.payment_id d)) (fun c3 =>
  opt_bind (cell_of_json (RelevantData.amount d)) (fun c4 =>
  opt_bind (cell_of_json (RelevantData.currency d)) (fun c5 =>
  opt_bind (cell_of_json (RelevantData.created_at d)) (fun c6 =>
  opt_bind (flags_of_json (RelevantData.flags d)) (fun c7 =>
  opt_bind (cell_of_json (RelevantData.payment_ref d)) (fun c8 =>
  opt_bind (cell_of_json (RelevantData.payment_provider d)) (fun c9 =>
  opt_bind (cell_of_json (RelevantData.payment_status d)) (fun c10 =>
  Some (mkTransactionRecord c1 c2 c3 c4 c5 c6 c7 c8 c9 c10))))))))))).

(** The rows get the labels [start], [start + 1], ... of a RangeIndex. *)
Fixpoint frame_from (start : nat) (ds : list RelevantData.t)
  : option (DataFrame TransactionRecord) :=
  match ds with
  | [] => Some []
  | d :: rest =>
      opt_bind (row_of_dict d) (fun r =>
      opt_bind (frame_from (S start) rest) (fun df =>
      Some ((start, r) :: df)))
  end.

(** [pd.DataFrame(relevant_datafile)] for a non-empty list of dicts whose
    values are of the data model; [None] for a list with another value. *)
Definition pd_DataFrame (relevant_datafile : list RelevantData.t)
  : option (DataFrame TransactionRecord) :=
  frame_from 0 relevant_datafile.

(* ===================================================================== *)
(** * [clean_transactions] *)
(* ===================================================================== *)

Definition clean_transactions (df : DataFrame TransactionRecord)
  : logged (DataFrame TransactionRecord) :=
  (df <~ (if any (fun r => isnull (order_id r)) df
          then logging WARNING
                 "Missing order_id found. Dropping rows with missing order_id." ;;;
               ret_logged (where_ (fun r => negb (isnull (order_id r))) df)
          else ret_logged df) ;;
   df <~ (if any (fun r => isnull (payment_id r)) df
          then logging WARNING
                 "Missing payment_id found. Dropping rows with missing payment_id." ;;;
               ret_logged (where_ (fun r => negb (isnull (payment_id r))) df)
          else ret_logged df) ;;
   ret_logged df)%logged.

(* ===================================================================== *)
(** * [is_cent] and [normalize_amount] *)
(* ===================================================================== *)

(** [is_cent(value)] for a value that is a [str] or missing. *)
Definition is_cent (value : option string) : bool :=
  match value with
  | None => false
  | Some s =>
      if String.eqb s EmptyString then false
      else if contains "." s || contains "$" s || contains "USD" s then false
      else true
  end.

(** [Series.astype(str)] on one cell of an [object] column: [str(value)],
    which is ["None"] for a missing amount. *)
Definition astype_str (c : cell) : string :=
  match c with
  | None => "None"
  | Some s => s
  end.

(** [Series.replace('', float('nan'))] on one cell: [None] is the NaN. *)
Definition replace_empty (s : string) : option string :=
  if String.eqb s EmptyString then None else Some s.

(** [Series.astype('float64')]: every cell is converted; the first one that
    is not a numeral raises. *)
Fixpoint astype_float64 (col : list (option string)) : py_result (list float64) :=
  match col with
  | [] => Ok []
  | None :: rest =>
      (xs <- astype_float64 rest ;; Ok (nan :: xs))%py
  | Some s :: rest =>
      (x <- py_float s ;; xs <- astype_float64 rest ;; Ok (x :: xs))%py
  end.

(** [col.loc[mask] = col.loc[mask] / 100] *)
Definition div100_where (mask : list bool) (col : list float64) : list float64 :=
  map (fun bx : bool * float64 => if fst bx then truediv (snd bx) (float_of_Z 100) else snd bx)
      (combine mask col).

(** [df['amount_usd'] = col] *)
Definition assign_amount_usd (df : DataFrame TransactionRecord) (col : list float64)
  : DataFrame CleanedRecord :=
  map (fun irx : nat * TransactionRecord * float64 => (fst (fst irx), mkCleanedRecord (snd (fst irx)) (snd irx)))
      (combine df col).

Definition count_true (mask : list bool) : nat :=
  List.length (filter (fun b => b) mask).

Definition amount_column (df1 : DataFrame TransactionRecord) : list string :=
  map (fun ir => astype_str (amount (snd ir))) df1.

(** Line 80: the mask of the rows whose amount looks like cents. *)
Definition cents_rep (df1 : DataFrame TransactionRecord) : list bool :=
  map (fun s => is_cent (Some s)) (amount_column df1).

(** Lines 83-89: the [amount_usd] column, before it is stored in the
    frame. *)
Definition amount_usd_column (df1 : DataFrame TransactionRecord)
  : py_result (list float64) :=
  (let col := amount_column df1 in
   let col := map strip_non_numeric col in
   let col := map str_strip col in
   let col := map replace_empty col in
   col <- astype_float64 col ;;
   Ok (div100_where (cents_rep df1) col))%py.

Definition normalize_amount (df1 : DataFrame TransactionRecord)
  : logged (DataFrame CleanedRecord) :=
  (logging INFO
     ("Identified " ++ nat_str (count_true (cents_rep df1))
      ++ " records in amount column that appear to be in cents format.") ;;;
   col <~ lift_result (amount_usd_column df1) ;;
   logging INFO
     "Normalized amount column by dividing by 100 for records identified as cents." ;;;
   let df1 := assign_amount_usd df1 col in
   let df1 := where_ (fun r => gt_zero (amount_usd r)) df1 in
   logging INFO
     "Dropped invalid rows where amount_usd is less than or equal to zero or NaN." ;;;
   ret_logged df1)%logged.

(* ===================================================================== *)
(** * [extract_flags] and the filter chain *)
(* ===================================================================== *)

(** [','.join(x) if isinstance(x, list) else x] *)
Definition canonical_flags (x : flags_cell) : flags_cell :=
  match x with
  | FlagsList xs => FlagsStr (join "," xs)
  | _ => x
  end.

Definition set_flags (f : flags_cell -> flags_cell) (r : CleanedRecord)
  : CleanedRecord :=
  let t := fields r in
  mkCleanedRecord
    (mkTransactionRecord (order_id t) (customer_email t) (payment_id t)
       (amount t) (currency t) (created_at t) (f (flags t)) (payment_ref t)
       (payment_provider t) (payment_status t))
    (amount_usd r).

(** [df['flags'] = df['flags'].apply(f)] *)
Definition apply_flags (f : flags_cell -> flags_cell) (df : DataFrame CleanedRecord)
  : DataFrame CleanedRecord :=
  map (fun ir : nat * CleanedRecord => (fst ir, set_flags f (snd ir))) df.

Definition extract_flags (df1 : DataFrame CleanedRecord)
  : logged (DataFrame CleanedRecord) :=
  (let df1 := apply_flags canonical_flags df1 in
   logging INFO
     "Extracted flags from list format to comma-separated string format in flags column." ;;;
   ret_logged df1)%logged.

(** [Series.str.contains(pat, na=False)] on one flags cell: a cell that is
    not a [str] gives a missing value, which [na=False] turns into [False]. *)
Definition str_contains (pat : string) (c : flags_cell) : bool :=
  match c with
  | FlagsStr s => contains pat s
  | _ => false
  end.

Definition remove_test_transactions (df1 : DataFrame CleanedRecord)
  : logged (DataFrame CleanedRecord) :=
  (if any (fun r => str_contains "test" (flags (fields r))) df1
      || any (fun r => str_contains "sandbox" (flags (fields r))) df1
   then
     logging WARNING
       "Transactions flagged as test found. Removing transactions flagged as test from the dataset." ;;;
     let df1 :=
       drop (index_where (fun r => str_contains "test" (flags (fields r))) df1) df1 in
     let df1 :=
       drop (index_where (fun r => str_contains "sandbox" (flags (fields r))) df1) df1 in
     ret_logged df1
   else ret_logged df1)%logged.

Definition remove_null_amounts (df1 : DataFrame CleanedRecord)
  : logged (DataFrame CleanedRecord) :=
  (if any (fun r => isnan (amount_usd r)) df1
   then
     logging WARNING
       "Null values found in amount_usd column. Dropping rows with null amounts." ;;;
     ret_logged (where_ (fun r => negb (isnan (amount_usd r))) df1)
   else ret_logged df1)%logged.

Definition remove_zero_amounts (df1 : DataFrame CleanedRecord)
  : logged (DataFrame CleanedRecord) :=
  (if any (fun r => eq_zero (amount_usd r)) df1
   then
     logging WARNING
       "Zero values found in amount_usd column. Dropping rows with zero amounts." ;;;
     ret_logged (where_ (fun r => negb (eq_zero (amount_usd r))) df1)
   else ret_logged df1)%logged.

(** [Series.fillna('normal')] on one flags cell *)
Definition fillna_normal (c : flags_cell) : flags_cell :=
  match c with
  | FlagsNone => FlagsStr "normal"
  | _ => c
  end.

Definition fill_na_flags (df1 : DataFrame CleanedRecord)
  : logged (DataFrame CleanedRecord) :=
  (if any (fun r => flags_isnull (flags (fields r))) df1
   then
     logging WARNING
       "Null values found in flags column. Filling null values with empty string." ;;;
     ret_logged (apply_flags fillna_normal df1)
   else ret_logged df1)%logged.

(** Rows are compared cell by cell; two float64 cells are equal when they
    are the same number, which for the values [normalize_amount] produces
    (each in its canonical form) is equality of representations. *)
Definition float64_eq_dec (x y : float64) : {x = y} + {x <> y}.
Proof.
  decide equality; try apply Bool.bool_dec;
    try apply Z.eq_dec; apply Pos.eq_dec.
Defined.

Definition cell_eq_dec (x y : cell) : {x = y} + {x <> y}.
Proof. decide equality; apply string_dec. Defined.

Definition flags_cell_eq_dec (x y : flags_cell) : {x = y} + {x <> y}.
Proof.
  decide equality; try apply string_dec.
  apply (list_eq_dec string_dec).
Defined.

Definition TransactionRecord_eq_dec (x y : TransactionRecord)
  : {x = y} + {x <> y}.
Proof.
  decide equality; try apply cell_eq_dec; apply flags_cell_eq_dec.
Defined.

Definition CleanedRecord_eq_dec (x y : CleanedRecord) : {x = y} + {x <> y}.
Proof.
  decide equality; [apply float64_eq_dec | apply TransactionRecord_eq_dec].
Defined.

(** [df.duplicated()]: a row is marked when an earlier row has the same
    value in every column; [seen] holds the rows met so far. *)
Fixpoint duplicated_from (seen : list CleanedRecord) (df : DataFrame CleanedRecord)
  : list bool :=
  match df with
  | [] => []
  | (_, r) :: rest =>
      (if in_dec CleanedRecord_eq_dec r seen then true else false)
        :: duplicated_from (r :: seen) rest
  end.

Definition duplicated (df : DataFrame CleanedRecord) : list bool :=
  duplicated_from [] df.

Definition drop_duplicates (df1 : DataFrame CleanedRecord)
  : logged (DataFrame CleanedRecord) :=
  (if existsb (fun b => b) (duplicated df1)
   then
     logging WARNING
       "Duplicate records found in the dataset. Dropping duplicate records." ;;;
     ret_logged (select (map negb (duplicated df1)) df1)
   else ret_logged df1)%logged.

(** [Series.isin(['FAILED', 'PENDING'])] on one cell *)
Definition isin_failed_pending (c : cell) : bool :=
  match c with
  | Some s => String.eqb s "FAILED" || String.eqb s "PENDING"
  | None => false
  end.

Definition drop_failed_pending_payments (df1 : DataFrame CleanedRecord)
  : logged (DataFrame CleanedRecord) :=
  (if any (fun r => isin_failed_pending (payment_status (fields r))) df1
   then
     logging WARNING
       "Failed or pending payments found in payment_status column. Dropping rows with failed or pending payments." ;;;
     ret_logged
       (where_ (fun r => negb (isin_failed_pending (payment_status (fields r)))) df1)
   else ret_logged df1)%logged.

(** Lines 145-150. *)
Definition filter_chain (df1 : DataFrame CleanedRecord)
  : logged (DataFrame CleanedRecord) :=
  (df1 <~ remove_test_transactions df1 ;;
   df1 <~ remove_null_amounts df1 ;;
   df1 <~ remove_zero_amounts df1 ;;
   df1 <~ drop_failed_pending_payments df1 ;;
   df1 <~ drop_duplicates df1 ;;
   fill_na_flags df1)%logged.

(* ===================================================================== *)
(** * The script *)
(* ===================================================================== *)

(** Lines 103-150, from the frame [clean_transactions] returned. *)
Definition clean_frame (df1 : DataFrame TransactionRecord)
  : logged (DataFrame CleanedRecord) :=
  (df1 <~ normalize_amount df1 ;;
   df1 <~ extract_flags df1 ;;
   filter_chain df1)%logged.

(** The module-level statements of lines 55-150 on the records [data] that
    [read_jsonl] returned.  The result is [None] when an extracted value is
    outside the data model of the frame.  When [getting_relevant_data]
    returned [None] or an empty list, [pd.DataFrame] builds a frame without
    columns, and [df.order_id] in [clean_transactions] raises. *)
Definition main (data : list json) : option (logged (DataFrame CleanedRecord)) :=
  let (relevant_datafile, log0) := getting_relevant_data data in
  match relevant_datafile with
  | None | Some [] =>
      Some ((Ok tt, log0) ;;;
            logging INFO "Extracted relevant data shape: (0, 0)" ;;;
            lift_result
              (Raise (AttributeError
                        "'DataFrame' object has no attribute 'order_id'")))%logged
  | Some ds =>
      match pd_DataFrame ds with
      | None => None
      | Some df =>
          Some ((Ok tt, log0) ;;;
                logging INFO
                  ("Extracted relevant data shape: (" ++ nat_str (n_rows df)
                   ++ ", 10)") ;;;
                df1 <~ clean_transactions df ;;
                clean_frame df1)%logged
      end
  end.

(* ===================================================================== *)
(** * Vocabulary of the specification *)
(* ===================================================================== *)

(** ** Nested paths of a raw event *)

(** The value at a nested path of keys, when every key on the way is
    present in a mapping. *)
Fixpoint lookup_path (v : json) (path : list string) : option json :=
  match path with
  | [] => Some v
  | key :: rest =>
      match v with
      | JObj kv =>
          match dict_get kv key with
          | Some x => lookup_path x rest
          | None => None
          end
      | _ => None
      end
  end.

Inductive field : Type :=
| F_order_id | F_customer_email | F_payment_id | F_amount | F_currency
| F_created_at | F_flags | F_payment_ref | F_payment_provider
| F_payment_status.

(** The path each field is read from, as lines 36-45 spell it. *)
Definition field_path (f : field) : list string :=
  match f with
  | F_order_id => ["entity"; "order"; "id"]
  | F_customer_email => ["entity"; "customer"; "email"]
  | F_payment_id => ["entity"; "payment"; "id"]
  | F_amount => ["payload"; "Amount"]
  | F_currency => ["entity"; "payload"; "Currency"]
  | F_created_at => ["event"; "ts"]
  | F_flags => ["payload"; "flags"]
  | F_payment_ref => ["entity"; "payment"; "provider_ref"]
  | F_payment_provider => ["entity"; "payment"; "provider"]
  | F_payment_status => ["payload"; "status"]
  end.

Definition field_value (d : RelevantData.t) (f : field) : json :=
  match f with
  | F_order_id => RelevantData.order_id d
  | F_customer_email => RelevantData.customer_email d
  | F_payment_id => RelevantData.payment_id d
  | F_amount => RelevantData.amount d
  | F_currency => RelevantData.currency d
  | F_created_at => RelevantData.created_at d
  | F_flags => RelevantData.flags d
  | F_payment_ref => RelevantData.payment_ref d
  | F_payment_provider => RelevantData.payment_provider d
  | F_payment_status => RelevantData.payment_status d
  end.

(** What a field holds when its path is absent. *)
Definition field_default (f : field) : json :=
  match f with
  | F_currency => JStr "USD"
  | F_flags => JList []
  | _ => JNull
  end.

Definition is_mapping (v : json) : bool :=
  match v with JObj _ => true | _ => false end.

Definition mapping_or_absent (record : json) (path : list string) : bool :=
  match lookup_path record path with
  | Some v => is_mapping v
  | None => true
  end.

(** The attributes under which the extractor looks further down. *)
Definition nested_attributes : list (list string) :=
  [ ["event"]; ["entity"]; ["payload"];
    ["entity"; "order"]; ["entity"; "customer"]; ["entity"; "payment"];
    ["entity"; "payload"] ].

(** A raw event of the data model: a mapping whose nested attributes, where
    present, are mappings. *)
Definition raw_event_shape (record : json) : bool :=
  is_mapping record && forallb (mapping_or_absent record) nested_attributes.

Definition path_or_default (record : json) (f : field) : json :=
  match lookup_path record (field_path f) with
  | Some v => v
  | None => field_default f
  end.

(** The record of one event, field by field from its paths. *)
Definition relevant_data_by_path (record : json) : RelevantData.t :=
  RelevantData.mk
    (path_or_default record F_order_id)
    (path_or_default record F_customer_email)
    (path_or_default record F_payment_id)
    (path_or_default record F_amount)
    (path_or_default record F_currency)
    (path_or_default record F_created_at)
    (path_or_default record F_flags)
    (path_or_default record F_payment_ref)
    (path_or_default record F_payment_provider)
    (path_or_default record F_payment_status).

(** [event.type], [None] when absent. *)
Definition event_type_of (record : json) : json :=
  match lookup_path record ["event"; "type"] with
  | Some v => v
  | None => JNull
  end.

(** The events the extractor keeps: those whose type is not ["heartbeat"]. *)
Definition retained (record : json) : bool :=
  negb (is_heartbeat (event_type_of record)).

(** The reading of the specification that an absent path gives a null
    field, for the record extracted from one event. *)
Definition absent_path_gives_null (record : json) : Prop :=
  forall d f,
    extract_one record = Ok (Some d) ->
    lookup_path record (field_path f) = None ->
    field_value d f = JNull.

(** ** Sample events *)

Definition sample_event (type : string) (order payment : json)
  (payload : list (string * json)) : json :=
  JObj [ ("event", JObj [("type", JStr type); ("ts", JStr "2024-05-01T10:00:00Z")]);
         ("entity",
           JObj [ ("order", JObj [("id", order)]);
                  ("customer", JObj [("email", JStr "ada@example.com")]);
                  ("payment",
                    JObj [ ("id", payment); ("provider", JStr "stripe");
                           ("provider_ref", JStr "ch_1") ]) ]);
         ("payload", JObj payload) ].

Definition purchase (order payment amount status : string)
  (more : list (string * json)) : json :=
  sample_event "purchase" (JStr order) (JStr payment)
    (("Amount", JStr amount) :: ("status", JStr status) :: more).

(** ** Amounts *)

(** [sub] occurs in [s]. *)
Definition substring_of (sub s : string) : Prop :=
  exists pre post, s = pre ++ sub ++ post.

(** Lines 83-86 on one cell: the numeral left of the raw amount, [None]
    when nothing is left. *)
Definition numeral_of (a : cell) : option string :=
  replace_empty (str_strip (strip_non_numeric (astype_str a))).

(** Lines 83-87 on one cell: the amount parsed as a float64. *)
Definition parsed_amount (a : cell) : py_result float64 :=
  match numeral_of a with
  | None => Ok nan
  | Some s => py_float s
  end.

(** A float64 that is [+inf] or a positive finite number of magnitude
    (number of digits plus exponent) at least [magnitude]. *)
Definition positive_result (x : spec_float) (magnitude : Z) : Prop :=
  x = S754_infinity false
  \/ exists m e,
       x = S754_finite false m e /\ (magnitude <= Zpos (digits2_pos m) + e)%Z.

(** A row whose only known cell is its raw amount. *)
Definition row_with_amount (a : string) : TransactionRecord :=
  mkTransactionRecord (Some "o1") None (Some "p1") (Some a) (Some "USD") None
    (FlagsList []) None None None.

(** Lines 83-89 on one cell: the [amount_usd] of a raw amount. *)
Definition amount_usd_cell (a : cell) : py_result float64 :=
  (y <- parsed_amount a ;;
   Ok (if is_cent (Some (astype_str a))
       then truediv y (float_of_Z 100)
       else y))%py.

(** The float64 numbers 5.0 and 12.5: [float(5)] and [25.0 / 2.0], both
    exact. *)
Definition f64_5_00 : float64 := float_of_Z 5.
Definition f64_12_50 : float64 := truediv (float_of_Z 25) (float_of_Z 2).

(** The reading of the specification for the malformed amount "12.5.0":
    stripped to "12.50", and normalized to 12.50. *)
Definition malformed_amount_reads_12_50 : Prop :=
  strip_non_numeric "12.5.0" = "12.50"
  /\ outcome (normalize_amount [(0%nat, row_with_amount "12.5.0")])
     = Ok [(0%nat, mkCleanedRecord (row_with_amount "12.5.0") f64_12_50)].

(** A row whose raw amount is a minus sign and the digits [ds] comes out of
    [normalize_amount] with a positive [amount_usd]. *)
Definition negative_amount_survives (ds : string) : Prop :=
  exists x out,
    outcome (normalize_amount [(0%nat, row_with_amount ("-" ++ ds))]) = Ok out
    /\ In (0%nat, mkCleanedRecord (row_with_amount ("-" ++ ds)) x) out
    /\ gt_zero x = true.

(** ** Rows and frames *)

(** Two rows that agree on every cell but [flags]. *)
Definition same_but_flags (r r' : CleanedRecord) : Prop :=
  order_id (fields r') = order_id (fields r)
  /\ customer_email (fields r') = customer_email (fields r)
  /\ payment_id (fields r') = payment_id (fields r)
  /\ amount (fields r') = amount (fields r)
  /\ currency (fields r') = currency (fields r)
  /\ created_at (fields r') = created_at (fields r)
  /\ payment_ref (fields r') = payment_ref (fields r)
  /\ payment_provider (fields r') = payment_provider (fields r)
  /\ payment_status (fields r') = payment_status (fields r)
  /\ amount_usd r' = amount_usd r.

(** The rows of [df] that no row of [seen] and no earlier row of [df]
    equals: what is left when every later copy of a row is taken out. *)
Fixpoint keep_first_from (seen : list CleanedRecord) (df : DataFrame CleanedRecord)
  : DataFrame CleanedRecord :=
  match df with
  | [] => []
  | (i, r) :: rest =>
      if in_dec CleanedRecord_eq_dec r seen
      then keep_first_from (r :: seen) rest
      else (i, r) :: keep_first_from (r :: seen) rest
  end.

Definition first_occurrences (df : DataFrame CleanedRecord)
  : DataFrame CleanedRecord :=
  keep_first_from [] df.

(** What the specification states of every row that survives the pipeline,
    cell by cell. *)
Definition clean_row (r : CleanedRecord) : Prop :=
  order_id (fields r) <> None
  /\ payment_id (fields r) <> None
  /\ gt_zero (amount_usd r) = true
  /\ payment_status (fields r) <> Some "FAILED"
  /\ payment_status (fields r) <> Some "PENDING"
  /\ exists s, flags (fields r) = FlagsStr s.

(** No two rows of the frame, at different places, are equal in every
    column. *)
Definition no_identical_rows (df : DataFrame CleanedRecord) : Prop :=
  NoDup (map snd df).

(** ** Two purchases that differ in their flags only *)

(** The same purchase twice: once with [flags] null, once with the flags
    list [["normal"]]. *)
Definition twin_events : list json :=
  [ purchase "o1" "p1" "500" "SUCCESS" [("flags", JNull)];
    purchase "o1" "p1" "500" "SUCCESS" [("flags", JList [JStr "normal"])] ].

Definition twin_row (f : flags_cell) : CleanedRecord :=
  mkCleanedRecord
    (mkTransactionRecord (Some "o1") (Some "ada@example.com") (Some "p1")
       (Some "500") (Some "USD") (Some "2024-05-01T10:00:00Z") f
       (Some "ch_1") (Some "stripe") (Some "SUCCESS"))
    f64_5_00.

(** The frame of the two purchases as [extract_flags] leaves it. *)
Definition twin_frame : DataFrame CleanedRecord :=
  [ (0%nat, twin_row FlagsNone); (1%nat, twin_row (FlagsStr "normal")) ].

(** ** More vocabulary: events, numerals, labels *)

(** A mapping whose [event] is a mapping of type ["heartbeat"]; nothing is
    asked of its other attributes. *)
Definition heartbeat_event (record : json) : bool :=
  match record with
  | JObj kv =>
      match dict_get kv "event" with
      | Some (JObj ev) =>
          match dict_get ev "type" with
          | Some event_type => is_heartbeat event_type
          | None => false
          end
      | _ => false
      end
  | _ => false
  end.

(** The number of points of a string. *)
Fixpoint count_points (s : string) : nat :=
  match s with
  | EmptyString => 0
  | String c s' => (if Ascii.eqb c "." then 1 else 0) + count_points s'
  end.

Fixpoint str_existsb (p : ascii -> bool) (s : string) : bool :=
  match s with
  | EmptyString => false
  | String c s' => p c || str_existsb p s'
  end.

(** A string of digits and points that [float] reads: at most one point, at
    least one digit. *)
Definition numeral_shape (s : string) : bool :=
  (count_points s <=? 1)%nat && str_existsb is_digit s.

(** A float64 that is not below zero and is not the negative zero: its sign
    bit is clear, or it is the NaN. *)
Definition sign_clear (x : float64) : bool :=
  match x with
  | S754_zero s => negb s
  | S754_infinity s => negb s
  | S754_nan => true
  | S754_finite s _ _ => negb s
  end.



(** ** A purchase without an amount *)

(** A purchase whose payload has no [Amount], and its row in the frame. *)
Definition event_without_amount : json :=
  sample_event "purchase" (JStr "o1") (JStr "p1") [("status", JStr "SUCCESS")].

Definition row_without_amount : TransactionRecord :=
  mkTransactionRecord (Some "o1") (Some "ada@example.com") (Some "p1") None
    (Some "USD") (Some "2024-05-01T10:00:00Z") (FlagsList []) (Some "ch_1")
    (Some "stripe") (Some "SUCCESS").

(* ===================================================================== *)
(** * Properties of field extraction *)
(* ===================================================================== *)

Unset Implicit Arguments.

Lemma py_get_mapping (kv : list (string * json)) (key : string) (default : json) :
  py_get (JObj kv) key default
  = Ok (match dict_get kv key with Some x => x | None => default end).
Proof. reflexivity. Qed.

Lemma is_mapping_inv (v : json) : is_mapping v = true -> exists kv, v = JObj kv.
Proof. destruct v; try discriminate. intros _. eexists. reflexivity. Qed.

(** Two-level lookup on a shaped event is the path lookup with a default. *)
Lemma get2_by_path (record : json) (k1 k2 : string) (default : json) :
  is_mapping record = true ->
  mapping_or_absent record [k1] = true ->
  get2 record k1 k2 default
  = Ok (match lookup_path record [k1; k2] with
        | Some v => v
        | None => default
        end).
Proof.
  intros Hrec H1. apply is_mapping_inv in Hrec as [kv ->].
  unfold get2, mapping_or_absent in *. cbn in *.
  destruct (dict_get kv k1) as [a |]; cbn.
  - apply is_mapping_inv in H1 as [kv1 ->]. cbn.
    destruct (dict_get kv1 k2); reflexivity.
  - reflexivity.
Qed.

Lemma get3_by_path (record : json) (k1 k2 k3 : string) (default : json) :
  is_mapping record = true ->
  mapping_or_absent record [k1] = true ->
  mapping_or_absent record [k1; k2] = true ->
  get3 record k1 k2 k3 default
  = Ok (match lookup_path record [k1; k2; k3] with
        | Some v => v
        | None => default
        end).
Proof.
  intros Hrec H1 H2. apply is_mapping_inv in Hrec as [kv ->].
  unfold get3, mapping_or_absent in *. cbn in *.
  destruct (dict_get kv k1) as [a |]; cbn.
  - apply is_mapping_inv in H1 as [kv1 ->]. cbn in *.
    destruct (dict_get kv1 k2) as [b |]; cbn.
    + apply is_mapping_inv in H2 as [kv2 ->]. cbn.
      destruct (dict_get kv2 k3); reflexivity.
    + reflexivity.
  - reflexivity.
Qed.

Lemma raw_event_shape_inv (record : json) :
  raw_event_shape record = true ->
  is_mapping record = true
  /\ forall path, In path nested_attributes -> mapping_or_absent record path = true.
Proof.
  unfold raw_event_shape. intros H. apply andb_true_iff in H as [H1 H2].
  split; [exact H1 |]. apply forallb_forall. exact H2.
Qed.

Ltac nested_attribute :=
  match goal with
  | H : forall path, In path nested_attributes -> _ |- _ =>
      apply H; unfold nested_attributes; cbn; tauto
  end.

Lemma relevant_data_of_shaped (record : json) :
  raw_event_shape record = true ->
  relevant_data_of record = Ok (relevant_data_by_path record).
Proof.
  intros H. apply raw_event_shape_inv in H as [Hrec Hnested].
  unfold relevant_data_of.
  repeat (first [ rewrite get3_by_path by (first [exact Hrec | nested_attribute])
                | rewrite get2_by_path by (first [exact Hrec | nested_attribute]) ];
          cbn [bind_result]).
  reflexivity.
Qed.

Lemma extract_one_shaped (record : json) :
  raw_event_shape record = true ->
  extract_one record
  = Ok (if retained record then Some (relevant_data_by_path record) else None).
Proof.
  intros H. unfold extract_one, retained, event_type_of.
  pose proof (raw_event_shape_inv record H) as [Hrec Hnested].
  rewrite get2_by_path by (first [exact Hrec | nested_attribute]).
  cbn [bind_result].
  destruct (is_heartbeat _); cbn [negb]; [reflexivity |].
  rewrite relevant_data_of_shaped by exact H. reflexivity.
Qed.

Lemma extract_loop_shaped (data : list json) :
  Forall (fun record => raw_event_shape record = true) data ->
  forall relevant_datafile,
    extract_loop data relevant_datafile
    = Ok (relevant_datafile
            ++ map relevant_data_by_path (filter retained data))%list.
Proof.
  induction 1 as [| record rest Hrecord _ IH]; intros acc; cbn [extract_loop].
  - cbn. rewrite app_nil_r. reflexivity.
  - rewrite extract_one_shaped by exact Hrecord. cbn [bind_result filter].
    destruct (retained record); cbn [map].
    + rewrite IH. rewrite <- app_assoc. reflexivity.
    + apply IH.
Qed.

(** C6. On any sequence of raw events of the data model, the extractor
    returns exactly the records of the events whose [event.type] is not
    ["heartbeat"], one per such event and in the order of the input; nothing
    is logged. *)
Theorem getting_relevant_data_one_per_retained_event (data : list json) :
  Forall (fun record => raw_event_shape record = true) data ->
  getting_relevant_data data
  = (Some (map relevant_data_by_path (filter retained data)), [])
  /\ List.length (map relevant_data_by_path (filter retained data))
     = List.length (filter retained data).
Proof.
  intros H. unfold getting_relevant_data.
  rewrite (extract_loop_shaped data H []). cbn [app].
  split; [reflexivity | apply length_map].
Qed.

Lemma getting_relevant_data_one_per_retained_event_witness :
  let data :=
    [ purchase "o1" "p1" "500" "SUCCESS" [];
      sample_event "heartbeat" JNull JNull [];
      purchase "o2" "p2" "7.25" "SUCCESS" [("flags", JList [JStr "promo"])] ] in
  Forall (fun record => raw_event_shape record = true) data
  /\ getting_relevant_data data
     = (Some [ relevant_data_by_path (purchase "o1" "p1" "500" "SUCCESS" []);
               relevant_data_by_path
                 (purchase "o2" "p2" "7.25" "SUCCESS"
                    [("flags", JList [JStr "promo"])]) ], []).
Proof.
  cbv zeta.
  assert (H : Forall (fun record => raw_event_shape record = true)
                [ purchase "o1" "p1" "500" "SUCCESS" [];
                  sample_event "heartbeat" JNull JNull [];
                  purchase "o2" "p2" "7.25" "SUCCESS"
                    [("flags", JList [JStr "promo"])] ]).
  { repeat constructor. }
  split; [exact H |].
  exact (proj1 (getting_relevant_data_one_per_retained_event _ H)).
Defined.

(** C5, as the code has it.  For every retained raw event of the data
    model, extraction succeeds and every field holds the value at its fixed
    nested path; a field whose path is absent is null, except [currency],
    which is then ["USD"], and [flags], which is then the empty list. *)
Theorem extraction_by_path_with_defaults (record : json) :
  raw_event_shape record = true ->
  retained record = true ->
  exists d,
    extract_one record = Ok (Some d)
    /\ (forall f v, lookup_path record (field_path f) = Some v -> field_value d f = v)
    /\ (forall f, lookup_path record (field_path f) = None ->
          f <> F_currency -> f <> F_flags -> field_value d f = JNull)
    /\ (lookup_path record (field_path F_currency) = None ->
          field_value d F_currency = JStr "USD")
    /\ (lookup_path record (field_path F_flags) = None ->
          field_value d F_flags = JList []).
Proof.
  intros Hshape Hret. exists (relevant_data_by_path record).
  rewrite extract_one_shaped by exact Hshape. rewrite Hret.
  split; [reflexivity |].
  assert (Hval : forall f,
             field_value (relevant_data_by_path record) f = path_or_default record f).
  { intros []; reflexivity. }
  repeat split.
  - intros f v Hf. rewrite Hval. unfold path_or_default. rewrite Hf. reflexivity.
  - intros f Hf Hc Hfl. rewrite Hval. unfold path_or_default. rewrite Hf.
    destruct f; try reflexivity; contradiction.
  - intros Hf. rewrite Hval. unfold path_or_default. rewrite Hf. reflexivity.
  - intros Hf. rewrite Hval. unfold path_or_default. rewrite Hf. reflexivity.
Qed.

Lemma extraction_by_path_with_defaults_witness :
  let record := JObj [("entity", JObj [("order", JObj [("id", JStr "o9")])])] in
  raw_event_shape record = true
  /\ retained record = true
  /\ exists d,
       extract_one record = Ok (Some d)
       /\ field_value d F_order_id = JStr "o9"
       /\ field_value d F_payment_id = JNull
       /\ field_value d F_currency = JStr "USD"
       /\ field_value d F_flags = JList [].
Proof.
  cbv zeta.
  split; [reflexivity |]. split; [reflexivity |].
  destruct (extraction_by_path_with_defaults
              (JObj [("entity", JObj [("order", JObj [("id", JStr "o9")])])])
              eq_refl eq_refl)
    as (d & Hd & Hpresent & Habsent & Hcur & Hfl).
  exists d. split; [exact Hd |].
  split; [apply (Hpresent F_order_id); reflexivity |].
  split; [apply (Habsent F_payment_id); [reflexivity | discriminate | discriminate] |].
  split; [apply Hcur; reflexivity | apply Hfl; reflexivity].
Defined.

(** C5, as the specification words it, fails on the empty event: its
    [currency] and [flags] paths are absent and neither field is null. *)
Lemma absent_path_gives_null_fails :
  ~ absent_path_gives_null (JObj []).
Proof.
  intros H.
  specialize (H (relevant_data_by_path (JObj [])) F_currency eq_refl eq_refl).
  discriminate H.
Qed.

(** A record that is not a mapping makes the loop body raise. *)
Lemma extract_one_not_mapping (record : json) :
  is_mapping record = false ->
  extract_one record
  = Raise (AttributeError
             ("'" ++ type_name record ++ "' object has no attribute 'get'")).
Proof. destruct record; try discriminate; reflexivity. Qed.

Lemma extract_loop_raises (data : list json) :
  Exists (fun record => exists e, extract_one record = Raise e) data ->
  forall relevant_datafile,
    exists e, extract_loop data relevant_datafile = Raise e.
Proof.
  induction data as [| record rest IH]; intros Hex acc.
  - inversion Hex.
  - cbn [extract_loop].
    destruct (extract_one record) as [r | e] eqn:E.
    + cbn [bind_result].
      assert (Hrest : Exists (fun record => exists e, extract_one record = Raise e) rest).
      { inversion Hex as [? ? [e He] | ? ? Ht]; subst.
        - rewrite E in He. discriminate.
        - exact Ht. }
      destruct r; apply IH; exact Hrest.
    + exists e. reflexivity.
Qed.

(** C9. When some record of the batch makes the extraction raise, the
    extractor returns [None] for the whole batch, whatever records came
    before, and logs one extraction error. *)
Theorem getting_relevant_data_all_or_nothing (data : list json) :
  Exists (fun record => exists e, extract_one record = Raise e) data ->
  exists e,
    getting_relevant_data data
    = (None, [(ERROR, "Error extracting relevant data: " ++ exn_str e)]).
Proof.
  intros Hex. destruct (extract_loop_raises data Hex []) as [e He].
  exists e. unfold getting_relevant_data. rewrite He. reflexivity.
Qed.

Lemma getting_relevant_data_all_or_nothing_witness :
  let data := [purchase "o1" "p1" "500" "SUCCESS" []; JStr "not a record"] in
  Exists (fun record => exists e, extract_one record = Raise e) data
  /\ exists e,
       getting_relevant_data data
       = (None, [(ERROR, "Error extracting relevant data: " ++ exn_str e)]).
Proof.
  cbv zeta.
  assert (H : Exists (fun record => exists e, extract_one record = Raise e)
                [purchase "o1" "p1" "500" "SUCCESS" []; JStr "not a record"]).
  { apply Exists_cons_tl. apply Exists_cons_hd.
    eexists. apply extract_one_not_mapping. reflexivity. }
  split; [exact H |].
  exact (getting_relevant_data_all_or_nothing _ H).
Defined.

(* ===================================================================== *)
(** * Properties of the string functions *)
(* ===================================================================== *)

Lemma prefix_spec (sub : string) : forall s,
  String.prefix sub s = true <-> exists post, s = sub ++ post.
Proof.
  induction sub as [| a sub IH]; intros s.
  - split; [intros _; exists s; reflexivity | intros _; destruct s; reflexivity].
  - destruct s as [| b s]; cbn.
    + split; [discriminate | intros [post H]; discriminate].
    + destruct (ascii_dec a b) as [-> | Hab].
      * rewrite IH. split; intros [post H]; exists post; congruence.
      * split; [discriminate | intros [post H]; congruence].
Qed.

Lemma contains_spec (sub : string) : forall s,
  contains sub s = true <-> substring_of sub s.
Proof.
  unfold substring_of.
  induction s as [| c s IH]; cbn [contains]; rewrite orb_true_iff.
  - split.
    + intros [H | H]; [| discriminate].
      apply prefix_spec in H as [post H]. exists EmptyString, post. exact H.
    + intros (pre & post & H). left. apply prefix_spec.
      destruct pre; [exists post; exact H | discriminate].
  - rewrite IH, prefix_spec. split.
    + intros [[post H] | (pre & post & H)].
      * exists EmptyString, post. exact H.
      * exists (String c pre), post. cbn. rewrite H. reflexivity.
    + intros (pre & post & H). destruct pre as [| c' pre]; cbn in H.
      * left. exists post. exact H.
      * right. exists pre, post. congruence.
Qed.

Lemma contains_false_spec (sub s : string) :
  contains sub s = false <-> ~ substring_of sub s.
Proof.
  rewrite <- contains_spec. destruct (contains sub s).
  - split; [discriminate | intros H; exfalso; apply H; reflexivity].
  - split; [intros _ H; discriminate | reflexivity].
Qed.

(** A string none of whose characters is [a] holds no string that starts
    with [a]. *)
Lemma contains_absent_char (a : ascii) (sub s : string) :
  str_forallb (fun c => negb (Ascii.eqb c a)) s = true ->
  contains (String a sub) s = false.
Proof.
  induction s as [| c s IH]; cbn; [reflexivity |].
  intros H. apply andb_true_iff in H as [Hc Hs].
  rewrite (IH Hs), orb_false_r.
  destruct (ascii_dec a c) as [-> | Hac]; [| reflexivity].
  rewrite Ascii.eqb_refl in Hc. discriminate.
Qed.

Lemma str_forallb_impl (p q : ascii -> bool) (s : string) :
  (forall c, p c = true -> q c = true) ->
  str_forallb p s = true -> str_forallb q s = true.
Proof.
  intros Hpq. induction s as [| c s IH]; cbn; [reflexivity |].
  intros H. apply andb_true_iff in H as [Hc Hs].
  rewrite (Hpq c Hc), (IH Hs). reflexivity.
Qed.

Lemma str_filter_all (keep : ascii -> bool) (s : string) :
  str_forallb keep s = true -> str_filter keep s = s.
Proof.
  induction s as [| c s IH]; cbn; [reflexivity |].
  intros H. apply andb_true_iff in H as [Hc Hs].
  rewrite Hc, (IH Hs). reflexivity.
Qed.

Lemma is_digit_range (c : ascii) :
  is_digit c = true <-> (48 <= nat_of_ascii c <= 57)%nat.
Proof.
  unfold is_digit. rewrite andb_true_iff, !Nat.leb_le. reflexivity.
Qed.

Lemma is_digit_not_space (c : ascii) : is_digit c = true -> is_space c = false.
Proof.
  rewrite is_digit_range. intros H. unfold is_space.
  apply orb_false_iff. split; apply andb_false_iff.
  - right. apply Nat.leb_gt. lia.
  - right. apply Nat.leb_gt. lia.
Qed.

Lemma is_digit_not_char (c a : ascii) :
  (nat_of_ascii a < 48 \/ 57 < nat_of_ascii a)%nat ->
  is_digit c = true -> negb (Ascii.eqb c a) = true.
Proof.
  intros Ha Hc. apply is_digit_range in Hc.
  destruct (Ascii.eqb_spec c a) as [-> | _]; [lia | reflexivity].
Qed.

Lemma lstrip_no_space (s : string) :
  str_forallb (fun c => negb (is_space c)) s = true -> lstrip s = s.
Proof.
  destruct s as [| c s]; cbn; [reflexivity |].
  intros H. apply andb_true_iff in H as [Hc _].
  apply negb_true_iff in Hc. rewrite Hc. reflexivity.
Qed.

Lemma rstrip_no_space (s : string) :
  str_forallb (fun c => negb (is_space c)) s = true -> rstrip s = s.
Proof.
  induction s as [| c s IH]; cbn; [reflexivity |].
  intros H. apply andb_true_iff in H as [Hc Hs].
  rewrite (IH Hs). apply negb_true_iff in Hc. rewrite Hc.
  destruct s; reflexivity.
Qed.

Lemma str_strip_digits (s : string) :
  str_forallb is_digit s = true -> str_strip s = s.
Proof.
  intros H.
  assert (Hns : str_forallb (fun c => negb (is_space c)) s = true).
  { apply (str_forallb_impl is_digit); [| exact H].
    intros c Hc. rewrite (is_digit_not_space c Hc). reflexivity. }
  unfold str_strip. rewrite (lstrip_no_space s Hns). apply rstrip_no_space, Hns.
Qed.

Lemma split_point_digits (s : string) :
  str_forallb is_digit s = true -> split_point s = (s, None).
Proof.
  induction s as [| c s IH]; cbn; [reflexivity |].
  intros H. apply andb_true_iff in H as [Hc Hs].
  rewrite (IH Hs).
  pose proof (is_digit_not_char c "." ltac:(cbn; lia) Hc) as Hne.
  apply negb_true_iff in Hne. rewrite Hne. reflexivity.
Qed.

Lemma digit_value_range (c : ascii) :
  is_digit c = true -> (0 <= digit_value c <= 9)%Z.
Proof. rewrite is_digit_range. unfold digit_value. lia. Qed.

Lemma digit_value_nonzero (c : ascii) :
  is_digit c = true -> Ascii.eqb c "0" = false -> (0 < digit_value c)%Z.
Proof.
  rewrite is_digit_range. intros Hc Hz. unfold digit_value.
  destruct (Nat.eq_dec (nat_of_ascii c) 48) as [E | E]; [| lia].
  exfalso. apply Ascii.eqb_neq in Hz. apply Hz.
  rewrite <- (ascii_nat_embedding c), E. reflexivity.
Qed.

Lemma digits_value_from_ge (s : string) : forall acc,
  str_forallb is_digit s = true -> (0 <= acc)%Z ->
  (acc <= digits_value_from acc s)%Z.
Proof.
  induction s as [| c s IH]; intros acc H Hacc;
    cbn [digits_value_from str_forallb] in *; [lia |].
  apply andb_true_iff in H as [Hc Hs].
  pose proof (digit_value_range c Hc).
  specialize (IH (10 * acc + digit_value c)%Z Hs ltac:(lia)). lia.
Qed.

(** Digits that are not all zeros are the numeral of a positive integer. *)
Lemma digits_value_from_pos (s : string) : forall acc,
  str_forallb is_digit s = true -> (0 <= acc)%Z ->
  str_forallb (fun c => Ascii.eqb c "0") s = false ->
  (0 < digits_value_from acc s)%Z.
Proof.
  induction s as [| c s IH]; intros acc H Hacc Hnz;
    cbn [digits_value_from str_forallb] in *; [discriminate |].
  apply andb_true_iff in H as [Hc Hs].
  pose proof (digit_value_range c Hc).
  apply andb_false_iff in Hnz as [Hz | Hz].
  - pose proof (digit_value_nonzero c Hc Hz).
    pose proof (digits_value_from_ge s (10 * acc + digit_value c)%Z Hs ltac:(lia)).
    lia.
  - apply IH; [exact Hs | lia | exact Hz].
Qed.

(* ===================================================================== *)
(** * Properties of float64 rounding *)
(* ===================================================================== *)

(** Division of two positive binary numbers gives a positive float, or
    [+inf], as long as the quotient is not in the subnormal range: neither
    the shift to the canonical exponent nor the rounding can bring the
    mantissa to zero. *)
Section Rounding.
Local Open Scope Z_scope.
Variables prec emax : Z.
Hypothesis prec_pos : 0 < prec.

Lemma digits2_bounds (p : positive) :
  2 ^ (Zpos (digits2_pos p) - 1) <= Zpos p < 2 ^ Zpos (digits2_pos p).
Proof.
  induction p as [p IH | p IH |]; cbn [digits2_pos].
  - rewrite Pos2Z.inj_succ.
    replace (Z.succ (Zpos (digits2_pos p)) - 1) with (Z.succ (Zpos (digits2_pos p) - 1)) by lia.
    rewrite !Z.pow_succ_r by lia. lia.
  - rewrite Pos2Z.inj_succ.
    replace (Z.succ (Zpos (digits2_pos p)) - 1) with (Z.succ (Zpos (digits2_pos p) - 1)) by lia.
    rewrite !Z.pow_succ_r by lia. lia.
  - cbn. lia.
Qed.

Lemma Zdigits2_bounds (m : Z) :
  0 < m -> 2 ^ (Zdigits2 m - 1) <= m < 2 ^ Zdigits2 m.
Proof.
  destruct m as [| p | p]; try lia. intros _. apply digits2_bounds.
Qed.

Lemma Zdigits2_pos (m : Z) : 0 < m -> 0 < Zdigits2 m.
Proof. destruct m; cbn; lia. Qed.

Lemma Zdigits2_lower (m k : Z) : 0 <= k -> 2 ^ k <= m -> k + 1 <= Zdigits2 m.
Proof.
  intros Hk Hm.
  assert (0 < m) by (pose proof (Z.pow_pos_nonneg 2 k); lia).
  destruct (Zdigits2_bounds m H) as [_ Hu].
  assert (2 ^ k < 2 ^ Zdigits2 m) by lia.
  apply Z.pow_lt_mono_r_iff in H0; try lia.
  pose proof (Zdigits2_pos m H). lia.
Qed.

Lemma Zdigits2_mono (m m' : Z) : 0 < m -> m <= m' -> Zdigits2 m <= Zdigits2 m'.
Proof.
  intros Hm Hle.
  destruct (Zdigits2_bounds m Hm) as [Hl _].
  pose proof (Zdigits2_pos m Hm).
  pose proof (Zdigits2_lower m' (Zdigits2 m - 1)). lia.
Qed.

Lemma div_pow2_lower (m n d : Z) :
  0 <= n -> n <= d -> 2 ^ d <= m -> 2 ^ (d - n) <= m / 2 ^ n.
Proof.
  intros Hn Hd Hm.
  apply Z.div_le_lower_bound.
  - apply Z.pow_pos_nonneg; lia.
  - rewrite <- Z.pow_add_r by lia. replace (n + (d - n)) with d by lia. exact Hm.
Qed.

Lemma shr_1_m (mrs : shr_record) :
  0 <= shr_m mrs -> shr_m (shr_1 mrs) = shr_m mrs / 2.
Proof.
  destruct mrs as [m r s]. cbn [shr_m]. intros Hm.
  destruct m as [| p | p]; try lia; cbn [shr_1 shr_m].
  - reflexivity.
  - destruct p as [p | p |]; cbn [shr_m].
    + rewrite Pos2Z.inj_xI. apply Z.div_unique with (r := 1); lia.
    + rewrite Pos2Z.inj_xO. apply Z.div_unique with (r := 0); lia.
    + reflexivity.
Qed.

Lemma iter_shr_1_m (n : positive) : forall mrs : shr_record,
  0 <= shr_m mrs ->
  shr_m (iter_pos shr_1 n mrs) = shr_m mrs / 2 ^ Zpos n.
Proof.
  induction n as [n IH | n IH |]; intros mrs Hm; cbn [iter_pos].
  - assert (H1 : 0 <= shr_m (shr_1 mrs)).
    { rewrite shr_1_m by exact Hm. apply Z.div_pos; lia. }
    assert (H2 : 0 <= shr_m (iter_pos shr_1 n (shr_1 mrs))).
    { rewrite IH by exact H1. apply Z.div_pos; [exact H1 | apply Z.pow_pos_nonneg; lia]. }
    rewrite IH by exact H2. rewrite IH by exact H1. rewrite shr_1_m by exact Hm.
    pose proof (Z.pow_pos_nonneg 2 (Zpos n) ltac:(lia) ltac:(lia)) as Hp.
    rewrite !Z.div_div by lia.
    f_equal. rewrite Pos2Z.inj_xI.
    rewrite <- Z.pow_add_r by lia.
    replace (2 * Zpos n + 1) with (1 + (Zpos n + Zpos n)) by lia.
    rewrite (Z.pow_add_r 2 1) by lia. reflexivity.
  - assert (H2 : 0 <= shr_m (iter_pos shr_1 n mrs)).
    { rewrite IH by exact Hm. apply Z.div_pos; [exact Hm | apply Z.pow_pos_nonneg; lia]. }
    rewrite IH by exact H2. rewrite IH by exact Hm.
    pose proof (Z.pow_pos_nonneg 2 (Zpos n) ltac:(lia) ltac:(lia)) as Hp.
    rewrite Z.div_div by lia.
    f_equal. rewrite Pos2Z.inj_xO. rewrite <- Z.pow_add_r by lia.
    f_equal. lia.
  - rewrite shr_1_m by exact Hm. reflexivity.
Qed.

Lemma shr_record_of_loc_m (m : Z) (l : location) : shr_m (shr_record_of_loc m l) = m.
Proof. destruct l as [| []]; reflexivity. Qed.

(** Shifting a mantissa to its canonical exponent keeps it positive and
    keeps its magnitude [digits + exponent], outside the subnormal range. *)
Lemma shr_fexp_pos (m e : Z) (l : location) :
  0 < m -> emin prec emax + prec <= Zdigits2 m + e ->
  forall mrs e', shr_fexp prec emax m e l = (mrs, e') ->
    0 < shr_m mrs /\ Zdigits2 m + e <= Zdigits2 (shr_m mrs) + e'.
Proof.
  intros Hm Hrange mrs e'. unfold shr_fexp, shr, fexp.
  rewrite Z.max_l by lia.
  pose proof (Zdigits2_bounds m Hm) as [Hlo Hhi].
  pose proof (Zdigits2_pos m Hm) as Hd.
  destruct (Zdigits2 m + e - prec - e) as [| n | n] eqn:En; intros [= <- <-].
  - rewrite shr_record_of_loc_m. lia.
  - rewrite iter_shr_1_m by (rewrite shr_record_of_loc_m; lia).
    rewrite shr_record_of_loc_m.
    assert (Hq : 2 ^ (Zdigits2 m - 1 - Zpos n) <= m / 2 ^ Zpos n).
    { apply div_pow2_lower; lia. }
    assert (0 < 2 ^ (Zdigits2 m - 1 - Zpos n)) by (apply Z.pow_pos_nonneg; lia).
    split; [lia |].
    pose proof (Zdigits2_lower (m / 2 ^ Zpos n) (Zdigits2 m - 1 - Zpos n)).
    lia.
  - rewrite shr_record_of_loc_m. lia.
Qed.

Lemma round_nearest_even_ge (m : Z) (l : location) :
  m <= round_nearest_even m l.
Proof.
  destruct l as [| []]; cbn; try lia. destruct (Z.even m); lia.
Qed.

Lemma binary_round_aux_positive (m e : Z) (l : location) :
  0 < m -> emin prec emax + prec <= Zdigits2 m + e ->
  positive_result (binary_round_aux prec emax false m e l) (Zdigits2 m + e).
Proof.
  intros Hm Hrange. unfold binary_round_aux.
  destruct (shr_fexp prec emax m e l) as [mrs1 e1] eqn:E1.
  destruct (shr_fexp_pos m e l Hm Hrange _ _ E1) as [Hm1 Hd1].
  set (m1 := round_nearest_even (shr_m mrs1) (loc_of_shr_record mrs1)).
  assert (Hge : shr_m mrs1 <= m1) by apply round_nearest_even_ge.
  assert (Hm1' : 0 < m1) by lia.
  pose proof (Zdigits2_mono _ _ Hm1 Hge) as Hmono.
  destruct (shr_fexp prec emax m1 e1 loc_Exact) as [mrs2 e2] eqn:E2.
  destruct (shr_fexp_pos m1 e1 loc_Exact Hm1' ltac:(lia) _ _ E2) as [Hm2 Hd2].
  destruct (shr_m mrs2) as [| p | p] eqn:Ep; try lia.
  destruct (e2 <=? emax - prec); [right | left; reflexivity].
  exists p, e2. split; [reflexivity |]. cbn [Zdigits2] in Hd2. lia.
Qed.

Lemma SFdiv_positive (m1 m2 : positive) (e1 e2 : Z) :
  emin prec emax + prec
    <= Zpos (digits2_pos m1) + e1 - (Zpos (digits2_pos m2) + e2) ->
  positive_result
    (SFdiv prec emax (S754_finite false m1 e1) (S754_finite false m2 e2))
    (Zpos (digits2_pos m1) + e1 - (Zpos (digits2_pos m2) + e2)).
Proof.
  intros Hrange. unfold SFdiv, SFdiv_core_binary. cbn [Zdigits2 xorb].
  set (d1 := Zpos (digits2_pos m1)) in *. set (d2 := Zpos (digits2_pos m2)) in *.
  unfold fexp. rewrite Z.max_l by lia.
  set (e' := Z.min (d1 + e1 - (d2 + e2) - prec) (e1 - e2)).
  remember (e1 - e2 - e') as s eqn:Es.
  assert (Hs : 0 <= s) by (unfold e' in Es; lia).
  set (m' := match s with Z0 => Zpos m1 | Zpos _ => Z.shiftl (Zpos m1) s | Zneg _ => 0 end).
  assert (Hm' : m' = Zpos m1 * 2 ^ s).
  { unfold m'. clear m' Es. destruct s as [| p | p]; try lia.
    rewrite Z.shiftl_mul_pow2 by lia. reflexivity. }
  destruct (Z.div_eucl m' (Zpos m2)) as [q r] eqn:Ediv.
  assert (Hq : q = m' / Zpos m2) by (unfold Z.div; rewrite Ediv; reflexivity).
  pose proof (digits2_bounds m1) as [Hl1 _]. fold d1 in Hl1.
  pose proof (digits2_bounds m2) as [_ Hu2]. fold d2 in Hu2.
  assert (Hk : 0 <= d1 - d2 + s - 1) by (unfold e' in Es; lia).
  assert (Hql : 2 ^ (d1 - d2 + s - 1) <= q).
  { rewrite Hq, Hm'. apply Z.div_le_lower_bound; [lia |].
    assert (Hp : 0 < 2 ^ (d1 - d2 + s - 1)) by (apply Z.pow_pos_nonneg; lia).
    assert (H1 : Zpos m2 * 2 ^ (d1 - d2 + s - 1) <= 2 ^ d2 * 2 ^ (d1 - d2 + s - 1)).
    { apply Z.mul_le_mono_nonneg_r; lia. }
    rewrite <- Z.pow_add_r in H1 by (unfold d2; lia).
    replace (d2 + (d1 - d2 + s - 1)) with ((d1 - 1) + s) in H1 by lia.
    rewrite Z.pow_add_r in H1 by (unfold d1; lia).
    assert (H2 : 2 ^ (d1 - 1) * 2 ^ s <= Zpos m1 * 2 ^ s).
    { apply Z.mul_le_mono_nonneg_r; [apply Z.pow_nonneg; lia | lia]. }
    lia. }
  assert (Hqpos : 0 < q).
  { pose proof (Z.pow_pos_nonneg 2 (d1 - d2 + s - 1)). lia. }
  pose proof (Zdigits2_lower q _ Hk Hql) as Hdq.
  assert (Hmag : d1 + e1 - (d2 + e2) <= Zdigits2 q + e') by lia.
  destruct (binary_round_aux_positive q e' (new_location (Zpos m2) r) Hqpos ltac:(lia))
    as [Hinf | (m & e & Hfin & Hmge)].
  - left. exact Hinf.
  - right. exists m, e. split; [exact Hfin | lia].
Qed.
End Rounding.

Lemma float_of_Z_100 :
  float_of_Z 100 = S754_finite false 7036874417766400 (-46).
Proof. reflexivity. Qed.

Lemma gt_zero_positive_result (x : float64) (magnitude : Z) :
  positive_result x magnitude -> gt_zero x = true.
Proof. intros [-> | (m & e & -> & _)]; reflexivity. Qed.

Lemma prec_pos : (0 < prec)%Z.
Proof. reflexivity. Qed.

(** A positive integer of cents is a positive amount of dollars: neither
    the rounding of the integer nor the division by 100 reaches zero. *)
Lemma cents_of_positive_integer (p : positive) :
  gt_zero (truediv (float_of_decimal (Zpos p) 0) (float_of_Z 100)) = true.
Proof.
  unfold float_of_decimal, truediv.
  change (exact_of_Z (10 ^ Z.of_nat 0)) with (S754_finite false 1 0).
  cbn [exact_of_Z]. rewrite float_of_Z_100.
  assert (Hp : (0 < Zpos (digits2_pos p))%Z) by lia.
  destruct (SFdiv_positive prec emax prec_pos p 1 0 0) as [-> | (m & e & -> & Hm)].
  { unfold emin, prec, emax. cbn [digits2_pos]. lia. }
  - reflexivity.
  - cbn [digits2_pos] in Hm.
    apply (gt_zero_positive_result _
             (Zpos (digits2_pos m) + e
              - (Zpos (digits2_pos 7036874417766400) + -46))%Z).
    apply (SFdiv_positive prec emax prec_pos).
    change (Zpos (digits2_pos 7036874417766400)) with 53%Z.
    unfold emin, prec, emax. lia.
Qed.

(* ===================================================================== *)
(** * Properties of the amount normalizer *)
(* ===================================================================== *)

Lemma is_cent_spec (s : string) :
  is_cent (Some s) = true
  <-> s <> EmptyString
      /\ ~ substring_of "." s /\ ~ substring_of "$" s /\ ~ substring_of "USD" s.
Proof.
  unfold is_cent. rewrite <- !contains_false_spec.
  destruct (String.eqb_spec s EmptyString) as [-> | Hne].
  - split; [discriminate | intros [H _]; contradiction].
  - destruct (contains "." s), (contains "$" s), (contains "USD" s); cbn;
      split; try discriminate; try (intros (_ & ? & ? & ?); discriminate);
      intros _; repeat split; assumption.
Qed.

Lemma amount_usd_column_cons (ir : nat * TransactionRecord)
  (df : DataFrame TransactionRecord) :
  amount_usd_column (ir :: df)
  = (x <- amount_usd_cell (amount (snd ir)) ;;
     col <- amount_usd_column df ;;
     Ok (x :: col))%py.
Proof.
  unfold amount_usd_column, amount_usd_cell, parsed_amount, numeral_of,
    cents_rep, amount_column.
  cbn [map astype_float64].
  destruct (replace_empty _) as [s |]; cbn [bind_result].
  - destruct (py_float s) as [y | e]; cbn [bind_result]; [| reflexivity].
    destruct (astype_float64 _) as [ys | e]; reflexivity.
  - destruct (astype_float64 _) as [ys | e]; reflexivity.
Qed.

Lemma amount_usd_column_Forall2 (df : DataFrame TransactionRecord) :
  forall col,
    amount_usd_column df = Ok col <->
    Forall2 (fun ir x => amount_usd_cell (amount (snd ir)) = Ok x) df col.
Proof.
  induction df as [| ir df IH]; intros col.
  - split.
    + intros [= <-]. constructor.
    + intros H. inversion H. reflexivity.
  - rewrite amount_usd_column_cons. split.
    + destruct (amount_usd_cell _) as [x |] eqn:Ex; [| discriminate].
      cbn [bind_result].
      destruct (amount_usd_column df) as [xs |] eqn:Exs; [| discriminate].
      intros [= <-]. constructor; [exact Ex | apply IH; reflexivity].
    + intros H. inversion H as [| ? x ? xs Hx Hxs]; subst.
      rewrite Hx. cbn [bind_result].
      apply IH in Hxs. rewrite Hxs. reflexivity.
Qed.

Lemma outcome_normalize_amount (df : DataFrame TransactionRecord) :
  outcome (normalize_amount df)
  = (col <- amount_usd_column df ;;
     Ok (where_ (fun r => gt_zero (amount_usd r)) (assign_amount_usd df col)))%py.
Proof.
  unfold normalize_amount, outcome.
  destruct (amount_usd_column df) as [col | e]; reflexivity.
Qed.

Lemma amount_usd_cell_inv (a : cell) (x : float64) :
  amount_usd_cell a = Ok x ->
  exists y,
    parsed_amount a = Ok y
    /\ x = if is_cent (Some (astype_str a)) then truediv y (float_of_Z 100) else y.
Proof.
  unfold amount_usd_cell. destruct (parsed_amount a) as [y |]; [| discriminate].
  intros [= <-]. exists y. split; reflexivity.
Qed.

(** The classification on string forms.  For every record, [is_cent] is
    true of the string form of the raw amount exactly when that string is
    not empty and holds no point, no dollar sign and no [USD]; the parsed
    amount is divided by 100 for the records so classified and left as
    parsed for the others, in particular for every amount holding a point, a
    dollar sign or [USD].  The string form of a missing amount is ["None"]:
    the test of [is_cent] for a missing value never sees it. *)
Theorem cents_classified_amounts_are_divided
  (df : DataFrame TransactionRecord) (col : list float64) :
  amount_usd_column df = Ok col ->
  Forall2
    (fun ir x =>
       let s := astype_str (amount (snd ir)) in
       (is_cent (Some s) = true
        <-> s <> EmptyString
            /\ ~ substring_of "." s /\ ~ substring_of "$" s
            /\ ~ substring_of "USD" s)
       /\ exists y,
            parsed_amount (amount (snd ir)) = Ok y
            /\ (is_cent (Some s) = true -> x = truediv y (float_of_Z 100))
            /\ (is_cent (Some s) = false -> x = y)
            /\ (substring_of "." s \/ substring_of "$" s \/ substring_of "USD" s
                -> x = y))
    df col.
Proof.
  intros H. apply amount_usd_column_Forall2 in H.
  induction H as [| ir x df col Hx _ IH]; constructor; [| exact IH].
  cbv zeta. split; [apply is_cent_spec |].
  destruct (amount_usd_cell_inv _ _ Hx) as (y & Hy & ->).
  exists y. split; [exact Hy |].
  split; [intros ->; reflexivity |].
  split; [intros ->; reflexivity |].
  intros Hsub.
  destruct (is_cent (Some (astype_str (amount (snd ir))))) eqn:Ecent;
    [| reflexivity].
  apply is_cent_spec in Ecent as (_ & H1 & H2 & H3). tauto.
Qed.

Lemma cents_classified_amounts_are_divided_witness :
  let df := [(0%nat, row_with_amount "500"); (1%nat, row_with_amount "$5.00")] in
  amount_usd_column df = Ok [f64_5_00; f64_5_00]
  /\ Forall2
       (fun ir x =>
          let s := astype_str (amount (snd ir)) in
          (is_cent (Some s) = true
           <-> s <> EmptyString
               /\ ~ substring_of "." s /\ ~ substring_of "$" s
               /\ ~ substring_of "USD" s)
          /\ exists y,
               parsed_amount (amount (snd ir)) = Ok y
               /\ (is_cent (Some s) = true -> x = truediv y (float_of_Z 100))
               /\ (is_cent (Some s) = false -> x = y)
               /\ (substring_of "." s \/ substring_of "$" s \/ substring_of "USD" s
                   -> x = y))
       df [f64_5_00; f64_5_00].
Proof.
  cbv zeta. split; [reflexivity |].
  apply cents_classified_amounts_are_divided. reflexivity.
Defined.

(** C3, as the code has it.  The amounts "500", "$5.00" and "5.00" all
    normalize to 5.00.  The malformed "12.5.0" keeps both its points under
    the stripping, is not classified as cents, and is not a numeral: the
    conversion to float64 raises, and [normalize_amount] with it. *)
Theorem normalize_amount_examples :
  outcome (normalize_amount [(0%nat, row_with_amount "500")])
  = Ok [(0%nat, mkCleanedRecord (row_with_amount "500") f64_5_00)]
  /\ outcome (normalize_amount [(0%nat, row_with_amount "$5.00")])
     = Ok [(0%nat, mkCleanedRecord (row_with_amount "$5.00") f64_5_00)]
  /\ outcome (normalize_amount [(0%nat, row_with_amount "5.00")])
     = Ok [(0%nat, mkCleanedRecord (row_with_amount "5.00") f64_5_00)]
  /\ is_cent (Some "500") = true
  /\ is_cent (Some "$5.00") = false
  /\ is_cent (Some "5.00") = false
  /\ strip_non_numeric "12.5.0" = "12.5.0"
  /\ is_cent (Some "12.5.0") = false
  /\ outcome (normalize_amount [(0%nat, row_with_amount "12.5.0")])
     = Raise (ValueError "could not convert string to float: '12.5.0'").
Proof. repeat split; reflexivity. Qed.

(** C3, as the specification words it, fails on "12.5.0": the stripping
    does not give "12.50", and no amount comes out. *)
Lemma malformed_amount_does_not_read_12_50 :
  ~ malformed_amount_reads_12_50.
Proof. intros [H _]. discriminate H. Qed.

Lemma strip_minus_digits (ds : string) :
  str_forallb is_digit ds = true ->
  strip_non_numeric ("-" ++ ds) = ds.
Proof.
  intros H. unfold strip_non_numeric. cbn [append str_filter].
  change (is_numeric_char "-") with false. cbn iota.
  apply str_filter_all. apply (str_forallb_impl is_digit); [| exact H].
  intros c Hc. unfold is_numeric_char. rewrite Hc. reflexivity.
Qed.

Lemma is_cent_minus_digits (ds : string) :
  str_forallb is_digit ds = true ->
  is_cent (Some ("-" ++ ds)) = true.
Proof.
  intros H.
  assert (Habsent : forall a sub,
             (nat_of_ascii a < 48 \/ 57 < nat_of_ascii a)%nat ->
             Ascii.eqb "-" a = false ->
             contains (String a sub) ("-" ++ ds) = false).
  { intros a sub Ha Hminus. apply contains_absent_char.
    cbn [append str_forallb]. rewrite Hminus. cbn [negb andb].
    apply (str_forallb_impl is_digit); [| exact H].
    intros c. apply is_digit_not_char. exact Ha. }
  unfold is_cent. cbn [append String.eqb].
  change ("-" ++ ds) with (String "-" ds) in Habsent.
  rewrite (Habsent "."%char EmptyString) by (cbn; first [lia | reflexivity]).
  rewrite (Habsent "$"%char EmptyString) by (cbn; first [lia | reflexivity]).
  rewrite (Habsent "U"%char "SD") by (cbn; first [lia | reflexivity]).
  reflexivity.
Qed.

Lemma not_all_zeros_nonempty (ds : string) :
  str_forallb (fun c => Ascii.eqb c "0") ds = false -> ds <> EmptyString.
Proof. intros H ->. discriminate H. Qed.

Lemma py_float_digits (ds : string) :
  str_forallb is_digit ds = true -> ds <> EmptyString ->
  py_float ds = Ok (float_of_decimal (digits_value ds) 0).
Proof.
  intros H Hne. unfold py_float. rewrite (split_point_digits ds H), H.
  apply String.eqb_neq in Hne. rewrite Hne. reflexivity.
Qed.

Lemma parsed_amount_minus_digits (ds : string) :
  str_forallb is_digit ds = true -> ds <> EmptyString ->
  parsed_amount (Some ("-" ++ ds)) = py_float ds.
Proof.
  intros H Hne. unfold parsed_amount, numeral_of. cbn [astype_str].
  rewrite (strip_minus_digits ds H), (str_strip_digits ds H).
  unfold replace_empty. apply String.eqb_neq in Hne. rewrite Hne. reflexivity.
Qed.

Lemma In_assign_amount_usd (df : DataFrame TransactionRecord) :
  forall (col : list float64) (i : nat) (t : TransactionRecord),
    Forall2 (fun ir x => amount_usd_cell (amount (snd ir)) = Ok x) df col ->
    In (i, t) df ->
    exists x,
      amount_usd_cell (amount t) = Ok x
      /\ In (i, mkCleanedRecord t x) (assign_amount_usd df col).
Proof.
  intros col i t H. induction H as [| ir x df col Hx _ IH]; intros Hin.
  - destruct Hin.
  - destruct Hin as [-> | Hin].
    + exists x. split; [exact Hx | left; reflexivity].
    + destruct (IH Hin) as (x' & Hx' & Hin'). exists x'.
      split; [exact Hx' | right; exact Hin'].
Qed.

(** C10, as the code has it.  When the raw amount is a minus sign followed
    by digits that are not all zeros, the stripping removes the sign, the
    amount is classified as cents, and the digits divided by 100 are a
    strictly positive [amount_usd]: the row alone goes through
    [normalize_amount], and in any frame that [normalize_amount] accepts the
    row stays, with that amount. *)
Theorem negative_cents_amount_survives
  (ds : string) (i : nat) (t : TransactionRecord) :
  str_forallb is_digit ds = true ->
  str_forallb (fun c => Ascii.eqb c "0") ds = false ->
  amount t = Some ("-" ++ ds) ->
  strip_non_numeric ("-" ++ ds) = ds
  /\ is_cent (Some ("-" ++ ds)) = true
  /\ exists y,
       py_float ds = Ok y
       /\ gt_zero (truediv y (float_of_Z 100)) = true
       /\ outcome (normalize_amount [(i, t)])
          = Ok [(i, mkCleanedRecord t (truediv y (float_of_Z 100)))]
       /\ forall df out,
            In (i, t) df ->
            outcome (normalize_amount df) = Ok out ->
            In (i, mkCleanedRecord t (truediv y (float_of_Z 100))) out.
Proof.
  intros Hdigits Hnz Hamount.
  pose proof (not_all_zeros_nonempty ds Hnz) as Hne.
  split; [apply strip_minus_digits; exact Hdigits |].
  split; [apply is_cent_minus_digits; exact Hdigits |].
  exists (float_of_decimal (digits_value ds) 0).
  split; [apply py_float_digits; assumption |].
  assert (Hpos : gt_zero (truediv (float_of_decimal (digits_value ds) 0)
                            (float_of_Z 100)) = true).
  { pose proof (digits_value_from_pos ds 0%Z Hdigits ltac:(lia) Hnz) as Hv.
    fold (digits_value ds) in Hv.
    destruct (digits_value ds) as [| p | p]; try lia.
    apply cents_of_positive_integer. }
  split; [exact Hpos |].
  assert (Hcell : amount_usd_cell (amount t)
                  = Ok (truediv (float_of_decimal (digits_value ds) 0)
                          (float_of_Z 100))).
  { rewrite Hamount. unfold amount_usd_cell.
    rewrite (parsed_amount_minus_digits ds Hdigits Hne).
    rewrite (py_float_digits ds Hdigits Hne). cbn [bind_result astype_str].
    rewrite (is_cent_minus_digits ds Hdigits). reflexivity. }
  split.
  - rewrite outcome_normalize_amount, amount_usd_column_cons.
    cbn [snd]. rewrite Hcell. cbn [bind_result].
    change (amount_usd_column []) with (@Ok (list float64) []).
    cbn [bind_result assign_amount_usd combine map fst snd].
    unfold where_. cbn [filter snd amount_usd]. rewrite Hpos. reflexivity.
  - intros df out Hin Hout.
    rewrite outcome_normalize_amount in Hout.
    destruct (amount_usd_column df) as [col |] eqn:Ecol; [| discriminate].
    cbn [bind_result] in Hout. injection Hout as <-.
    apply amount_usd_column_Forall2 in Ecol.
    destruct (In_assign_amount_usd df col i t Ecol Hin) as (x & Hx & Hin').
    rewrite Hcell in Hx. injection Hx as <-.
    unfold where_. apply filter_In. split; [exact Hin' |].
    cbn [snd amount_usd]. exact Hpos.
Qed.

Lemma negative_cents_amount_survives_witness :
  str_forallb is_digit "500" = true
  /\ str_forallb (fun c => Ascii.eqb c "0") "500" = false
  /\ amount (row_with_amount "-500") = Some ("-" ++ "500")
  /\ strip_non_numeric ("-" ++ "500") = "500"
  /\ is_cent (Some ("-" ++ "500")) = true
  /\ exists y,
       py_float "500" = Ok y
       /\ gt_zero (truediv y (float_of_Z 100)) = true
       /\ outcome (normalize_amount [(7%nat, row_with_amount "-500")])
          = Ok [(7%nat, mkCleanedRecord (row_with_amount "-500")
                          (truediv y (float_of_Z 100)))]
       /\ forall df out,
            In (7%nat, row_with_amount "-500") df ->
            outcome (normalize_amount df) = Ok out ->
            In (7%nat, mkCleanedRecord (row_with_amount "-500")
                         (truediv y (float_of_Z 100))) out.
Proof.
  split; [reflexivity |]. split; [reflexivity |]. split; [reflexivity |].
  exact (negative_cents_amount_survives "500" 7 (row_with_amount "-500")
           eq_refl eq_refl eq_refl).
Defined.

(** C10, as the claim words it, fails on "-0": the digits divided by 100
    are zero, and the row is dropped. *)
Lemma negative_zero_amount_is_dropped :
  ~ negative_amount_survives "0".
Proof.
  intros (x & out & Hout & Hin & _).
  change (outcome (normalize_amount [(0%nat, row_with_amount ("-" ++ "0"))]))
    with (@Ok (DataFrame CleanedRecord) []) in Hout.
  injection Hout as <-. destruct Hin.
Qed.

(* ===================================================================== *)
(** * Properties of the frame operations *)
(* ===================================================================== *)

Lemma outcome_bind_logged {A B : Type} (m : logged A) (k : A -> logged B) :
  outcome (bind_logged m k)
  = match outcome m with
    | Ok a => outcome (k a)
    | Raise e => Raise e
    end.
Proof.
  unfold outcome, bind_logged. destruct m as [[a | e] l]; cbn; [| reflexivity].
  destruct (k a); reflexivity.
Qed.

Lemma where_not_any {R : Type} (mask : R -> bool) (df : DataFrame R) :
  any mask df = false -> where_ (fun r => negb (mask r)) df = df.
Proof.
  unfold any, where_. induction df as [| ir df IH]; cbn; [reflexivity |].
  intros H. apply orb_false_iff in H as [H1 H2].
  rewrite H1, (IH H2). reflexivity.
Qed.

Lemma In_where {R : Type} (mask : R -> bool) (df : DataFrame R) (i : nat) (r : R) :
  In (i, r) (where_ mask df) <-> In (i, r) df /\ mask r = true.
Proof. unfold where_. rewrite filter_In. reflexivity. Qed.

Lemma In_drop {R : Type} (labels : list nat) (df : DataFrame R) (i : nat) (r : R) :
  In (i, r) (drop labels df) <-> In (i, r) df /\ ~ In i labels.
Proof.
  unfold drop. rewrite filter_In. cbn [fst]. rewrite negb_true_iff.
  split; intros [H1 H2]; (split; [exact H1 |]).
  - intros Hin. assert (E : existsb (Nat.eqb i) labels = true).
    { apply existsb_exists. exists i. split; [exact Hin | apply Nat.eqb_refl]. }
    congruence.
  - destruct (existsb (Nat.eqb i) labels) eqn:E; [| reflexivity].
    apply existsb_exists in E as (j & Hj & Hij).
    apply Nat.eqb_eq in Hij. subst j. contradiction.
Qed.

Lemma In_index_where {R : Type} (mask : R -> bool) (df : DataFrame R) (i : nat) :
  In i (index_where mask df) <-> exists r, In (i, r) df /\ mask r = true.
Proof.
  unfold index_where. rewrite in_map_iff. split.
  - intros ([j r] & Hj & Hin). cbn in Hj. subst j.
    exists r. apply In_where. exact Hin.
  - intros (r & Hin). exists (i, r). split; [reflexivity |].
    apply In_where. exact Hin.
Qed.

Lemma any_false {R : Type} (mask : R -> bool) (df : DataFrame R) (i : nat) (r : R) :
  any mask df = false -> In (i, r) df -> mask r = false.
Proof.
  unfold any. intros H Hin.
  destruct (mask r) eqn:E; [| reflexivity].
  assert (Hex : existsb (fun ir => mask (snd ir)) df = true).
  { apply existsb_exists. exists (i, r). split; [exact Hin | exact E]. }
  congruence.
Qed.

(** ** The filters, one by one *)

Lemma outcome_detect_then_drop {R : Type} (mask : R -> bool) (msg : string)
  (df : DataFrame R) :
  outcome (if any mask df
           then (logging WARNING msg ;;;
                 ret_logged (where_ (fun r => negb (mask r)) df))%logged
           else ret_logged df)
  = Ok (where_ (fun r => negb (mask r)) df).
Proof.
  destruct (any mask df) eqn:E; [reflexivity |].
  cbn. rewrite (where_not_any _ _ E). reflexivity.
Qed.

Lemma outcome_clean_transactions (df : DataFrame TransactionRecord) :
  outcome (clean_transactions df)
  = Ok (where_ (fun r => negb (isnull (payment_id r)))
          (where_ (fun r => negb (isnull (order_id r))) df)).
Proof.
  unfold clean_transactions. rewrite outcome_bind_logged.
  rewrite (outcome_detect_then_drop (fun r => isnull (order_id r))).
  rewrite outcome_bind_logged.
  rewrite (outcome_detect_then_drop (fun r => isnull (payment_id r))).
  reflexivity.
Qed.

Lemma outcome_extract_flags (df : DataFrame CleanedRecord) :
  outcome (extract_flags df) = Ok (apply_flags canonical_flags df).
Proof. reflexivity. Qed.

Lemma outcome_remove_test_transactions (df : DataFrame CleanedRecord) :
  outcome (remove_test_transactions df)
  = Ok (if any (fun r => str_contains "test" (flags (fields r))) df
           || any (fun r => str_contains "sandbox" (flags (fields r))) df
        then
          let df1 :=
            drop (index_where (fun r => str_contains "test" (flags (fields r))) df)
              df in
          drop (index_where
                  (fun r => str_contains "sandbox" (flags (fields r))) df1) df1
        else df).
Proof.
  unfold remove_test_transactions. destruct (_ || _); reflexivity.
Qed.

Lemma outcome_remove_null_amounts (df : DataFrame CleanedRecord) :
  outcome (remove_null_amounts df)
  = Ok (where_ (fun r => negb (isnan (amount_usd r))) df).
Proof.
  unfold remove_null_amounts.
  apply (outcome_detect_then_drop (fun r => isnan (amount_usd r))).
Qed.

Lemma outcome_remove_zero_amounts (df : DataFrame CleanedRecord) :
  outcome (remove_zero_amounts df)
  = Ok (where_ (fun r => negb (eq_zero (amount_usd r))) df).
Proof.
  unfold remove_zero_amounts.
  apply (outcome_detect_then_drop (fun r => eq_zero (amount_usd r))).
Qed.

Lemma outcome_drop_failed_pending_payments (df : DataFrame CleanedRecord) :
  outcome (drop_failed_pending_payments df)
  = Ok (where_
          (fun r => negb (isin_failed_pending (payment_status (fields r)))) df).
Proof.
  unfold drop_failed_pending_payments.
  apply (outcome_detect_then_drop (fun r => isin_failed_pending (payment_status (fields r)))).
Qed.

Lemma set_flags_same (f : flags_cell -> flags_cell) (r : CleanedRecord) :
  f (flags (fields r)) = flags (fields r) -> set_flags f r = r.
Proof.
  destruct r as [[] x]. unfold set_flags. cbn. intros ->. reflexivity.
Qed.

Lemma outcome_fill_na_flags (df : DataFrame CleanedRecord) :
  outcome (fill_na_flags df) = Ok (apply_flags fillna_normal df).
Proof.
  unfold fill_na_flags. destruct (any _ df) eqn:E; [reflexivity |].
  cbn. f_equal. unfold apply_flags. symmetry.
  rewrite <- (map_id df) at 2. apply map_ext_in.
  intros [i r] Hin. cbn [fst snd]. f_equal.
  apply set_flags_same.
  pose proof (any_false _ df i r E Hin) as Hnull. cbn beta in Hnull.
  destruct (flags (fields r)); [discriminate | reflexivity | reflexivity].
Qed.

Lemma In_apply_flags (f : flags_cell -> flags_cell) (df : DataFrame CleanedRecord)
  (i : nat) (r' : CleanedRecord) :
  In (i, r') (apply_flags f df)
  <-> exists r, In (i, r) df /\ r' = set_flags f r.
Proof.
  unfold apply_flags. rewrite in_map_iff. split.
  - intros ([j r] & E & Hin). cbn in E. injection E as -> <-.
    exists r. split; [exact Hin | reflexivity].
  - intros (r & Hin & ->). exists (i, r). split; [reflexivity | exact Hin].
Qed.

Lemma set_flags_same_but_flags (f : flags_cell -> flags_cell) (r : CleanedRecord) :
  same_but_flags r (set_flags f r)
  /\ flags (fields (set_flags f r)) = f (flags (fields r)).
Proof. unfold same_but_flags, set_flags. cbn. repeat split. Qed.

(** A row whose flags hold ["test"] leaves with every row of its label. *)
Lemma remove_test_transactions_drops (df : DataFrame CleanedRecord)
  (i : nat) (r : CleanedRecord) :
  In (i, r) df ->
  str_contains "test" (flags (fields r)) = true ->
  exists out,
    outcome (remove_test_transactions df) = Ok out
    /\ forall r', ~ In (i, r') out.
Proof.
  intros Hin Htest. rewrite outcome_remove_test_transactions.
  eexists. split; [reflexivity |].
  assert (Hany : any (fun r => str_contains "test" (flags (fields r))) df = true).
  { unfold any. apply existsb_exists. exists (i, r). split; assumption. }
  rewrite Hany. cbn [orb]. cbv zeta.
  intros r' Hin'. apply In_drop in Hin' as [Hin' _].
  apply In_drop in Hin' as [_ Hnot]. apply Hnot.
  apply In_index_where. exists r. split; assumption.
Qed.

(** No row that is left holds ["test"] or ["sandbox"] in its flags, and
    every row that is left was there. *)
Lemma remove_test_transactions_rows (df : DataFrame CleanedRecord) :
  exists out,
    outcome (remove_test_transactions df) = Ok out
    /\ forall i r, In (i, r) out ->
         In (i, r) df
         /\ str_contains "test" (flags (fields r)) = false
         /\ str_contains "sandbox" (flags (fields r)) = false.
Proof.
  rewrite outcome_remove_test_transactions. eexists. split; [reflexivity |].
  intros i r.
  destruct (any (fun r => str_contains "test" (flags (fields r))) df
            || any (fun r => str_contains "sandbox" (flags (fields r))) df) eqn:E.
  - cbv zeta. intros Hin. apply In_drop in Hin as [Hin Hsand].
    pose proof Hin as Hin1. apply In_drop in Hin as [Hin Htest].
    split; [exact Hin |]. split.
    + destruct (str_contains "test" (flags (fields r))) eqn:Et; [| reflexivity].
      exfalso. apply Htest. apply In_index_where. exists r. split; assumption.
    + destruct (str_contains "sandbox" (flags (fields r))) eqn:Es; [| reflexivity].
      exfalso. apply Hsand. apply In_index_where. exists r. split; assumption.
  - apply orb_false_iff in E as [E1 E2]. intros Hin.
    split; [exact Hin |]. split.
    + exact (any_false _ df i r E1 Hin).
    + exact (any_false _ df i r E2 Hin).
Qed.

(** C7. [extract_flags] turns every flags cell that is a list into the
    string of its items joined by commas and leaves every other flags cell,
    and every other column, as it was.  The flags [["test", "promo"]] become
    ["test,promo"], and [remove_test_transactions] then drops that row. *)
Theorem extract_flags_joins_lists (df : DataFrame CleanedRecord) :
  exists out,
    outcome (extract_flags df) = Ok out
    /\ Forall2
         (fun ir jr =>
            fst jr = fst ir
            /\ same_but_flags (snd ir) (snd jr)
            /\ flags (fields (snd jr))
               = match flags (fields (snd ir)) with
                 | FlagsList xs => FlagsStr (join "," xs)
                 | c => c
                 end)
         df out
    /\ join "," ["test"; "promo"] = "test,promo"
    /\ forall i r,
         In (i, r) df ->
         flags (fields r) = FlagsList ["test"; "promo"] ->
         exists r',
           In (i, r') out
           /\ same_but_flags r r'
           /\ flags (fields r') = FlagsStr "test,promo"
           /\ exists out',
                outcome (remove_test_transactions out) = Ok out'
                /\ forall r'', ~ In (i, r'') out'.
Proof.
  exists (apply_flags canonical_flags df).
  split; [apply outcome_extract_flags |].
  split.
  { unfold apply_flags. induction df as [| [i r] df IH]; cbn [map]; constructor.
    - cbn [fst snd]. split; [reflexivity |].
      destruct (set_flags_same_but_flags canonical_flags r) as [Hsame Hflags].
      split; [exact Hsame |]. rewrite Hflags.
      destruct (flags (fields r)); reflexivity.
    - exact IH. }
  split; [reflexivity |].
  intros i r Hin Hflags.
  exists (set_flags canonical_flags r).
  destruct (set_flags_same_but_flags canonical_flags r) as [Hsame Hcanon].
  rewrite Hflags in Hcanon.
  change (canonical_flags (FlagsList ["test"; "promo"]))
    with (FlagsStr "test,promo") in Hcanon.
  split; [apply In_apply_flags; exists r; split; [exact Hin | reflexivity] |].
  split; [exact Hsame |]. split; [exact Hcanon |].
  apply (remove_test_transactions_drops _ i (set_flags canonical_flags r)).
  - apply In_apply_flags. exists r. split; [exact Hin | reflexivity].
  - rewrite Hcanon. reflexivity.
Qed.

(* ===================================================================== *)
(** * Properties of [drop_duplicates] *)
(* ===================================================================== *)

Lemma select_keep_first_from (df : DataFrame CleanedRecord) :
  forall seen,
    select (map negb (duplicated_from seen df)) df = keep_first_from seen df.
Proof.
  unfold select. induction df as [| [i r] df IH]; intros seen; [reflexivity |].
  cbn [duplicated_from map combine filter keep_first_from].
  destruct (in_dec CleanedRecord_eq_dec r seen); cbn [negb fst snd map].
  - apply IH.
  - rewrite IH. reflexivity.
Qed.

Lemma keep_first_from_no_duplicate (df : DataFrame CleanedRecord) :
  forall seen,
    existsb (fun b => b) (duplicated_from seen df) = false ->
    keep_first_from seen df = df.
Proof.
  induction df as [| [i r] df IH]; intros seen; [reflexivity |].
  cbn [duplicated_from existsb keep_first_from].
  destruct (in_dec CleanedRecord_eq_dec r seen); cbn [orb]; [discriminate |].
  intros H. rewrite (IH _ H). reflexivity.
Qed.

Lemma outcome_drop_duplicates (df : DataFrame CleanedRecord) :
  outcome (drop_duplicates df) = Ok (first_occurrences df).
Proof.
  unfold drop_duplicates, first_occurrences, duplicated.
  destruct (existsb _ _) eqn:E.
  - cbn. rewrite select_keep_first_from. reflexivity.
  - cbn. rewrite (keep_first_from_no_duplicate _ _ E). reflexivity.
Qed.

Lemma In_keep_first_from (df : DataFrame CleanedRecord) :
  forall seen i r,
    In (i, r) (keep_first_from seen df) -> In (i, r) df /\ ~ In r seen.
Proof.
  induction df as [| [j x] df IH]; intros seen i r; cbn [keep_first_from].
  - intros [].
  - destruct (in_dec CleanedRecord_eq_dec x seen) as [Hx | Hx].
    + intros H. apply IH in H as [H1 H2].
      split; [right; exact H1 | intros Hs; apply H2; right; exact Hs].
    + intros [E | H].
      * injection E as -> ->. split; [left; reflexivity | exact Hx].
      * apply IH in H as [H1 H2].
        split; [right; exact H1 | intros Hs; apply H2; right; exact Hs].
Qed.

Lemma keep_first_from_rows (df : DataFrame CleanedRecord) :
  forall seen r,
    In r (map snd (keep_first_from seen df))
    <-> In r (map snd df) /\ ~ In r seen.
Proof.
  induction df as [| [j x] df IH]; intros seen r; cbn [keep_first_from map].
  - cbn. tauto.
  - destruct (in_dec CleanedRecord_eq_dec x seen) as [Hx | Hx]; cbn [map snd In].
    + rewrite IH. cbn [In]. split.
      * intros [H1 H2]. split; [right; exact H1 | tauto].
      * intros [[-> | H1] H2]; [contradiction |]. split; [exact H1 |].
        intros [-> | Hs]; [contradiction | contradiction].
    + rewrite IH. cbn [In]. split.
      * intros [-> | [H1 H2]]; [split; [left; reflexivity | exact Hx] |].
        split; [right; exact H1 | tauto].
      * intros [[-> | H1] H2]; [left; reflexivity |].
        destruct (CleanedRecord_eq_dec x r) as [-> | Hne];
          [left; reflexivity | right].
        split; [exact H1 |]. intros [E | Hs]; [contradiction | contradiction].
Qed.

Lemma keep_first_from_NoDup (df : DataFrame CleanedRecord) :
  forall seen, NoDup (map snd (keep_first_from seen df)).
Proof.
  induction df as [| [j x] df IH]; intros seen; cbn [keep_first_from].
  - constructor.
  - destruct (in_dec CleanedRecord_eq_dec x seen) as [Hx | Hx]; [apply IH |].
    cbn [map snd]. constructor; [| apply IH].
    rewrite keep_first_from_rows. intros [_ H]. apply H. left. reflexivity.
Qed.

(** Only the rows in [seen] matter, not their order or number. *)
Lemma keep_first_from_ext (df : DataFrame CleanedRecord) :
  forall seen seen',
    (forall r, In r seen <-> In r seen') ->
    keep_first_from seen df = keep_first_from seen' df.
Proof.
  induction df as [| [j x] df IH]; intros seen seen' H; [reflexivity |].
  cbn [keep_first_from].
  assert (Hcons : forall r, In r (x :: seen) <-> In r (x :: seen')).
  { intros r. cbn [In]. rewrite H. reflexivity. }
  rewrite (IH _ _ Hcons).
  destruct (in_dec CleanedRecord_eq_dec x seen) as [Hx | Hx],
           (in_dec CleanedRecord_eq_dec x seen') as [Hx' | Hx'];
    try reflexivity; exfalso.
  - apply Hx', H, Hx.
  - apply Hx, H, Hx'.
Qed.

Lemma keep_first_from_app (pre : DataFrame CleanedRecord) :
  forall seen post,
    keep_first_from seen (pre ++ post)%list
    = (keep_first_from seen pre
         ++ keep_first_from (rev (map snd pre) ++ seen) post)%list.
Proof.
  induction pre as [| [j x] pre IH]; intros seen post; [reflexivity |].
  cbn [app keep_first_from map snd rev].
  rewrite IH. rewrite <- app_assoc. cbn [app].
  destruct (in_dec CleanedRecord_eq_dec x seen); reflexivity.
Qed.

(** C8. [drop_duplicates] never raises.  Of the rows that are equal in
    every column exactly one is left, for every such group; a row that no
    earlier row equals stays, after what is left of the rows before it, and
    no copy of it is left behind it; a row that an earlier row equals goes,
    and the result is that of the frame without it. *)
Theorem drop_duplicates_keeps_first_occurrence (df : DataFrame CleanedRecord) :
  exists out,
    outcome (drop_duplicates df) = Ok out
    /\ NoDup (map snd out)
    /\ (forall r, In r (map snd df) <-> In r (map snd out))
    /\ (forall i r, In (i, r) out -> In (i, r) df)
    /\ (forall pre i r post,
          df = (pre ++ (i, r) :: post)%list ->
          ~ In r (map snd pre) ->
          exists out_pre post',
            outcome (drop_duplicates pre) = Ok out_pre
            /\ out = (out_pre ++ (i, r) :: post')%list
            /\ ~ In r (map snd post'))
    /\ (forall pre i r post,
          df = (pre ++ (i, r) :: post)%list ->
          In r (map snd pre) ->
          outcome (drop_duplicates (pre ++ post)%list) = Ok out).
Proof.
  exists (first_occurrences df).
  split; [apply outcome_drop_duplicates |].
  split; [apply keep_first_from_NoDup |].
  split.
  { intros r. unfold first_occurrences. rewrite keep_first_from_rows.
    cbn [In]. tauto. }
  split.
  { intros i r H. apply In_keep_first_from in H. tauto. }
  split.
  - intros pre i r post -> Hfirst.
    exists (first_occurrences pre),
           (keep_first_from (r :: rev (map snd pre) ++ []) post).
    split; [apply outcome_drop_duplicates |].
    split.
    + unfold first_occurrences. rewrite keep_first_from_app.
      cbn [keep_first_from].
      destruct (in_dec CleanedRecord_eq_dec r (rev (map snd pre) ++ []))
        as [Hin | _]; [| reflexivity].
      exfalso. apply Hfirst. rewrite app_nil_r in Hin.
      apply in_rev. exact Hin.
    + rewrite keep_first_from_rows. intros [_ H]. apply H. left. reflexivity.
  - intros pre i r post -> Hlater.
    rewrite outcome_drop_duplicates. f_equal.
    unfold first_occurrences. rewrite !keep_first_from_app.
    cbn [keep_first_from].
    assert (Hin : In r (rev (map snd pre) ++ [])).
    { rewrite app_nil_r. apply in_rev. rewrite rev_involutive. exact Hlater. }
    destruct (in_dec CleanedRecord_eq_dec r (rev (map snd pre) ++ []))
      as [_ | Hnot]; [| contradiction].
    f_equal. apply keep_first_from_ext.
    intros x. cbn [In]. split; [tauto |].
    intros [<- | H]; [exact Hin | exact H].
Qed.

(* ===================================================================== *)
(** * The pipeline on two purchases that differ in their flags only *)
(* ===================================================================== *)

(** The script hands [twin_frame] to the filter chain when it is run on
    [twin_events]. *)
Lemma twin_frame_of_twin_events :
  exists ds df0 df1 df2,
    getting_relevant_data twin_events = (Some ds, [])
    /\ pd_DataFrame ds = Some df0
    /\ outcome (clean_transactions df0) = Ok df1
    /\ outcome (normalize_amount df1) = Ok df2
    /\ outcome (extract_flags df2) = Ok twin_frame.
Proof. repeat eexists; reflexivity. Qed.

(** C1 at [twin_events].  The script runs to its end and leaves two rows
    that are equal in every column: the row whose flags were null is filled
    with ["normal"] after the duplicates were dropped. *)
Theorem main_leaves_identical_rows :
  exists log,
    main twin_events
    = Some (Ok [ (0%nat, twin_row (FlagsStr "normal"));
                 (1%nat, twin_row (FlagsStr "normal")) ], log)
    /\ ~ no_identical_rows
           [ (0%nat, twin_row (FlagsStr "normal"));
             (1%nat, twin_row (FlagsStr "normal")) ].
Proof.
  eexists. split; [reflexivity |].
  unfold no_identical_rows. cbn [map snd]. intros H.
  inversion H as [| ? ? Hnotin _]; subst. apply Hnotin. left. reflexivity.
Qed.

(** C2 at [twin_frame].  The first run of the filter chain leaves both rows,
    now equal; the second run drops one of them. *)
Theorem filter_chain_second_run_drops_a_row :
  outcome (filter_chain twin_frame)
  = Ok [ (0%nat, twin_row (FlagsStr "normal"));
         (1%nat, twin_row (FlagsStr "normal")) ]
  /\ outcome (filter_chain [ (0%nat, twin_row (FlagsStr "normal"));
                             (1%nat, twin_row (FlagsStr "normal")) ])
     = Ok [ (0%nat, twin_row (FlagsStr "normal")) ].
Proof. split; reflexivity. Qed.

(* ===================================================================== *)
(** * What every surviving row satisfies *)
(* ===================================================================== *)

Lemma In_assign_amount_usd_inv (df : DataFrame TransactionRecord) :
  forall (col : list float64) (i : nat) (r : CleanedRecord),
    In (i, r) (assign_amount_usd df col) -> In (i, fields r) df.
Proof.
  unfold assign_amount_usd.
  induction df as [| [j t] df IH]; intros col i r; destruct col as [| x col];
    cbn [combine map In fst snd]; try tauto.
  intros [E | H].
  - injection E as <- <-. left. reflexivity.
  - right. exact (IH col i r H).
Qed.

Lemma outcome_filter_chain (df : DataFrame CleanedRecord) :
  exists df1,
    outcome (remove_test_transactions df) = Ok df1
    /\ outcome (filter_chain df)
       = Ok (apply_flags fillna_normal
               (first_occurrences
                  (where_
                     (fun r => negb (isin_failed_pending (payment_status (fields r))))
                     (where_ (fun r => negb (eq_zero (amount_usd r)))
                        (where_ (fun r => negb (isnan (amount_usd r))) df1))))).
Proof.
  eexists. split; [apply outcome_remove_test_transactions |].
  unfold filter_chain.
  rewrite outcome_bind_logged, outcome_remove_test_transactions. cbv beta iota.
  rewrite outcome_bind_logged, outcome_remove_null_amounts. cbv beta iota.
  rewrite outcome_bind_logged, outcome_remove_zero_amounts. cbv beta iota.
  rewrite outcome_bind_logged, outcome_drop_failed_pending_payments. cbv beta iota.
  rewrite outcome_bind_logged, outcome_drop_duplicates. cbv beta iota.
  apply outcome_fill_na_flags.
Qed.

Lemma isin_failed_pending_false (c : cell) :
  isin_failed_pending c = false -> c <> Some "FAILED" /\ c <> Some "PENDING".
Proof.
  destruct c as [s |]; cbn; [| split; discriminate].
  intros H. apply orb_false_iff in H as [H1 H2].
  apply String.eqb_neq in H1, H2. split; congruence.
Qed.

(** The rows [clean_frame] returns: each comes from a row of its argument,
    with the same keys, a positive amount, a payment that neither failed
    nor is pending, and flags that are a string. *)
Lemma clean_frame_rows (df : DataFrame TransactionRecord)
  (out : DataFrame CleanedRecord) :
  outcome (clean_frame df) = Ok out ->
  forall i r,
    In (i, r) out ->
    exists t,
      In (i, t) df
      /\ order_id (fields r) = order_id t
      /\ payment_id (fields r) = payment_id t
      /\ gt_zero (amount_usd r) = true
      /\ payment_status (fields r) <> Some "FAILED"
      /\ payment_status (fields r) <> Some "PENDING"
      /\ exists s, flags (fields r) = FlagsStr s.
Proof.
  unfold clean_frame. rewrite outcome_bind_logged, outcome_normalize_amount.
  destruct (amount_usd_column df) as [col |]; [| discriminate].
  cbv beta iota. cbn [bind_result].
  rewrite outcome_bind_logged, outcome_extract_flags. cbv beta iota.
  destruct (outcome_filter_chain
              (apply_flags canonical_flags
                 (where_ (fun r => gt_zero (amount_usd r))
                    (assign_amount_usd df col)))) as (df1 & Htest & ->).
  intros [= <-] i r Hin.
  apply In_apply_flags in Hin as (r0 & Hin & ->).
  apply In_keep_first_from in Hin as [Hin _].
  apply In_where in Hin as [Hin Hstatus].
  apply In_where in Hin as [Hin _]. apply In_where in Hin as [Hin _].
  destruct (remove_test_transactions_rows
              (apply_flags canonical_flags
                 (where_ (fun r => gt_zero (amount_usd r))
                    (assign_amount_usd df col)))) as (df1' & Htest' & Hrows).
  rewrite Htest in Htest'. injection Htest' as <-.
  apply Hrows in Hin as [Hin _].
  apply In_apply_flags in Hin as (r1 & Hin & ->).
  apply In_where in Hin as [Hin Hgt].
  apply In_assign_amount_usd_inv in Hin.
  exists (fields r1). split; [exact Hin |].
  apply negb_true_iff, isin_failed_pending_false in Hstatus.
  destruct r1 as [t x]. unfold set_flags in *. cbn in *.
  repeat split; try tauto.
  destruct (flags t); cbn; eexists; reflexivity.
Qed.

(** Every row the script leaves has its two keys, a positive amount, a
    payment that neither failed nor is pending, and flags that are a
    string. *)
Lemma main_rows_are_clean (data : list json) (out : DataFrame CleanedRecord)
  (log : list log_record) :
  main data = Some (Ok out, log) ->
  forall i r, In (i, r) out -> clean_row r.
Proof.
  unfold main. destruct (getting_relevant_data data) as [[[| d ds] |] log0];
    try (cbn; discriminate).
  destruct (pd_DataFrame (d :: ds)) as [df |]; [| discriminate].
  intros H. injection H as H.
  assert (Hout : outcome
                   (df1 <~ clean_transactions df ;; clean_frame df1)%logged
                 = Ok out).
  { apply (f_equal outcome) in H.
    destruct (df1 <~ clean_transactions df ;; clean_frame df1)%logged
      as [r0 l2].
    exact H. }
  clear H. rewrite outcome_bind_logged, outcome_clean_transactions in Hout.
  cbv beta iota in Hout.
  intros i r Hin.
  destruct (clean_frame_rows _ _ Hout i r Hin)
    as (t & Ht & Ho & Hp & Hgt & Hf & Hpe & Hflags).
  apply In_where in Ht as [Ht Hpid]. apply In_where in Ht as [_ Hoid].
  unfold clean_row. rewrite Ho, Hp.
  repeat split; try assumption.
  - destruct (order_id t); [discriminate | discriminate].
  - destruct (payment_id t); [discriminate | discriminate].
Qed.

(* ===================================================================== *)
(** * A second run of the filter chain *)
(* ===================================================================== *)

Lemma where_all {R : Type} (mask : R -> bool) (df : DataFrame R) :
  (forall i r, In (i, r) df -> mask r = true) -> where_ mask df = df.
Proof.
  unfold where_. induction df as [| [i r] df IH]; intros H; [reflexivity |].
  cbn [filter snd]. rewrite (H i r (or_introl eq_refl)).
  rewrite IH; [reflexivity |].
  intros j x Hin. apply (H j x). right. exact Hin.
Qed.

Lemma keep_first_from_NoDup_same (df : DataFrame CleanedRecord) :
  forall seen,
    NoDup (map snd df) ->
    (forall r, In r (map snd df) -> ~ In r seen) ->
    keep_first_from seen df = df.
Proof.
  induction df as [| [i r] df IH]; intros seen Hnd Hseen; [reflexivity |].
  cbn [keep_first_from]. cbn [map snd] in Hnd, Hseen.
  inversion Hnd as [| ? ? Hnotin Hnd']; subst.
  destruct (in_dec CleanedRecord_eq_dec r seen) as [Hin | _].
  - exfalso. exact (Hseen r (or_introl eq_refl) Hin).
  - rewrite IH; [reflexivity | exact Hnd' |].
    intros x Hx [<- | Hs]; [contradiction |].
    exact (Hseen x (or_intror Hx) Hs).
Qed.

Lemma apply_flags_same (f : flags_cell -> flags_cell) (df : DataFrame CleanedRecord) :
  (forall i r, In (i, r) df -> f (flags (fields r)) = flags (fields r)) ->
  apply_flags f df = df.
Proof.
  intros H. unfold apply_flags. rewrite <- (map_id df) at 2.
  apply map_ext_in. intros [i r] Hin. cbn [fst snd]. f_equal.
  apply set_flags_same. exact (H i r Hin).
Qed.

(** When no flags cell is null, so that [fill_na_flags] has nothing to
    fill, the chain gives the same frame on its own result. *)
Lemma filter_chain_twice_without_null_flags (df : DataFrame CleanedRecord) :
  (forall i r, In (i, r) df -> flags (fields r) <> FlagsNone) ->
  exists out,
    outcome (filter_chain df) = Ok out
    /\ outcome (filter_chain out) = Ok out.
Proof.
  intros Hflags.
  destruct (outcome_filter_chain df) as (df1 & Htest & Hchain).
  destruct (remove_test_transactions_rows df) as (df1' & Htest' & Hrows).
  rewrite Htest in Htest'. injection Htest' as <-.
  set (kept := first_occurrences
                 (where_
                    (fun r => negb (isin_failed_pending (payment_status (fields r))))
                    (where_ (fun r => negb (eq_zero (amount_usd r)))
                       (where_ (fun r => negb (isnan (amount_usd r))) df1)))) in *.
  assert (Hkept : forall i r,
             In (i, r) kept ->
             In (i, r) df
             /\ str_contains "test" (flags (fields r)) = false
             /\ str_contains "sandbox" (flags (fields r)) = false
             /\ negb (isnan (amount_usd r)) = true
             /\ negb (eq_zero (amount_usd r)) = true
             /\ negb (isin_failed_pending (payment_status (fields r))) = true).
  { intros i r Hin. unfold kept in Hin.
    apply In_keep_first_from in Hin as [Hin _].
    apply In_where in Hin as [Hin H3]. apply In_where in Hin as [Hin H2].
    apply In_where in Hin as [Hin H1]. apply Hrows in Hin. tauto. }
  assert (Hfill : apply_flags fillna_normal kept = kept).
  { apply apply_flags_same. intros i r Hin.
    apply Hkept in Hin as [Hin _]. apply Hflags in Hin.
    destruct (flags (fields r)); [contradiction | reflexivity | reflexivity]. }
  rewrite Hfill in Hchain. exists kept. split; [exact Hchain |].
  destruct (outcome_filter_chain kept) as (kept1 & Htest2 & ->).
  rewrite outcome_remove_test_transactions in Htest2.
  assert (Hany1 : any (fun r => str_contains "test" (flags (fields r))) kept = false).
  { unfold any. destruct (existsb _ kept) eqn:E; [| reflexivity].
    apply existsb_exists in E as ([i r] & Hin & Hr).
    apply Hkept in Hin. cbn [snd] in Hr. destruct Hin as (_ & Hn & _). congruence. }
  assert (Hany2 : any (fun r => str_contains "sandbox" (flags (fields r))) kept = false).
  { unfold any. destruct (existsb _ kept) eqn:E; [| reflexivity].
    apply existsb_exists in E as ([i r] & Hin & Hr).
    apply Hkept in Hin. cbn [snd] in Hr. destruct Hin as (_ & _ & Hn & _). congruence. }
  rewrite Hany1, Hany2 in Htest2. cbn [orb] in Htest2. injection Htest2 as <-.
  rewrite (where_all (fun r => negb (isnan (amount_usd r))) kept)
    by (intros i r Hin; apply Hkept in Hin; tauto).
  rewrite (where_all (fun r => negb (eq_zero (amount_usd r))) kept)
    by (intros i r Hin; apply Hkept in Hin; tauto).
  rewrite (where_all
             (fun r => negb (isin_failed_pending (payment_status (fields r)))) kept)
    by (intros i r Hin; apply Hkept in Hin; tauto).
  unfold first_occurrences at 1.
  rewrite (keep_first_from_NoDup_same kept [])
    by (first [apply keep_first_from_NoDup | intros r _ []]).
  rewrite Hfill. reflexivity.
Qed.

(* ===================================================================== *)
(** * More on field extraction *)
(* ===================================================================== *)

Lemma extract_one_heartbeat (record : json) :
  heartbeat_event record = true -> extract_one record = Ok None.
Proof.
  destruct record as [| | | | | kv]; try discriminate.
  unfold heartbeat_event, extract_one, get2. cbn [py_get bind_result].
  destruct (dict_get kv "event") as [[| | | | | ev] |]; try discriminate.
  cbn [py_get bind_result].
  destruct (dict_get ev "type") as [event_type |]; [| discriminate].
  intros ->. reflexivity.
Qed.

(** X1. A heartbeat event is skipped before any of its fields is read: it
    gives no record and raises nothing, whatever its [entity] and [payload]
    hold, and a batch of such events is extracted to the empty list. *)
Theorem heartbeat_event_is_skipped_unread (record : json) (data : list json) :
  heartbeat_event record = true ->
  Forall (fun r => heartbeat_event r = true) data ->
  extract_one record = Ok None
  /\ getting_relevant_data data = (Some [], []).
Proof.
  intros Hrec Hdata. split; [exact (extract_one_heartbeat record Hrec) |].
  unfold getting_relevant_data.
  assert (Hloop : forall acc, extract_loop data acc = Ok acc).
  { induction Hdata as [| r rest Hr _ IH]; intros acc; cbn [extract_loop];
      [reflexivity |].
    rewrite (extract_one_heartbeat r Hr). cbn [bind_result]. apply IH. }
  rewrite Hloop. reflexivity.
Qed.

Lemma heartbeat_event_is_skipped_unread_witness :
  let record :=
    JObj [ ("event", JObj [("type", JStr "heartbeat")]);
           ("entity", JStr "not a mapping"); ("payload", JNull) ] in
  heartbeat_event record = true
  /\ Forall (fun r => heartbeat_event r = true) [record; record]
  /\ extract_one record = Ok None
  /\ getting_relevant_data [record; record] = (Some [], []).
Proof.
  cbv zeta. split; [reflexivity |].
  assert (H : Forall (fun r => heartbeat_event r = true)
                [ JObj [ ("event", JObj [("type", JStr "heartbeat")]);
                         ("entity", JStr "not a mapping"); ("payload", JNull) ];
                  JObj [ ("event", JObj [("type", JStr "heartbeat")]);
                         ("entity", JStr "not a mapping"); ("payload", JNull) ] ]).
  { repeat constructor. }
  split; [exact H |].
  exact (heartbeat_event_is_skipped_unread
           (JObj [ ("event", JObj [("type", JStr "heartbeat")]);
                   ("entity", JStr "not a mapping"); ("payload", JNull) ])
           _ eq_refl H).
Defined.

(** X2. An attribute that is present but is not a mapping is not treated
    as an absent one: when [entity] is there and is, say, null, the
    extraction of a retained event raises, and the message names the type of
    the value found. *)
Theorem present_entity_that_is_no_mapping_raises
  (kv : list (string * json)) (event_type v : json) :
  get2 (JObj kv) "event" "type" JNull = Ok event_type ->
  is_heartbeat event_type = false ->
  dict_get kv "entity" = Some v ->
  is_mapping v = false ->
  extract_one (JObj kv)
  = Raise (AttributeError
             ("'" ++ type_name v ++ "' object has no attribute 'get'")).
Proof.
  intros Hty Hhb Hentity Hv. unfold extract_one. rewrite Hty.
  cbn [bind_result]. rewrite Hhb.
  unfold relevant_data_of, get3. cbn [py_get bind_result]. rewrite Hentity.
  destruct v; try discriminate; reflexivity.
Qed.

Lemma present_entity_that_is_no_mapping_raises_witness :
  let kv := [("event", JObj [("type", JStr "purchase")]); ("entity", JNull)] in
  get2 (JObj kv) "event" "type" JNull = Ok (JStr "purchase")
  /\ is_heartbeat (JStr "purchase") = false
  /\ dict_get kv "entity" = Some JNull
  /\ is_mapping JNull = false
  /\ extract_one (JObj kv)
     = Raise (AttributeError "'NoneType' object has no attribute 'get'").
Proof.
  cbv zeta. repeat (split; [reflexivity |]).
  exact (present_entity_that_is_no_mapping_raises
           [("event", JObj [("type", JStr "purchase")]); ("entity", JNull)]
           (JStr "purchase") JNull eq_refl eq_refl eq_refl eq_refl).
Defined.

Lemma extract_loop_from (data : list json) :
  forall relevant_datafile,
    extract_loop data relevant_datafile
    = (l <- extract_loop data [] ;; Ok (relevant_datafile ++ l)%list)%py.
Proof.
  induction data as [| record rest IH]; intros acc; cbn [extract_loop].
  - cbn. rewrite app_nil_r. reflexivity.
  - destruct (extract_one record) as [[d |] | e]; cbn [bind_result].
    + rewrite (IH (acc ++ [d])%list), (IH ([] ++ [d])%list).
      destruct (extract_loop rest []) as [l | e]; cbn [bind_result];
        [| reflexivity].
      rewrite <- app_assoc. reflexivity.
    + apply IH.
    + reflexivity.
Qed.

Lemma extract_loop_app (data1 data2 : list json) :
  forall relevant_datafile,
    extract_loop (data1 ++ data2)%list relevant_datafile
    = (l <- extract_loop data1 relevant_datafile ;; extract_loop data2 l)%py.
Proof.
  induction data1 as [| record rest IH]; intros acc; cbn [app extract_loop].
  - reflexivity.
  - destruct (extract_one record) as [[d |] | e]; cbn [bind_result];
      [apply IH | apply IH | reflexivity].
Qed.

(** X3. Extraction of two batches put end to end: when both batches are
    extracted, the result is the two results end to end; when either batch
    fails, so does the whole. *)
Theorem getting_relevant_data_app (data1 data2 : list json) :
  (forall l1 l2,
     fst (getting_relevant_data data1) = Some l1 ->
     fst (getting_relevant_data data2) = Some l2 ->
     getting_relevant_data (data1 ++ data2)%list = (Some (l1 ++ l2)%list, []))
  /\ (fst (getting_relevant_data data1) = None
      \/ fst (getting_relevant_data data2) = None ->
      fst (getting_relevant_data (data1 ++ data2)%list) = None).
Proof.
  unfold getting_relevant_data. rewrite extract_loop_app.
  split.
  - intros l1 l2.
    destruct (extract_loop data1 []) as [l1' | e1]; [| discriminate].
    cbn [bind_result fst]. intros [= ->]. rewrite (extract_loop_from data2 l1).
    destruct (extract_loop data2 []) as [l2' | e2]; [| discriminate].
    cbn [bind_result fst]. intros [= ->]. reflexivity.
  - destruct (extract_loop data1 []) as [l1' | e1]; cbn [bind_result fst];
      [| reflexivity].
    rewrite (extract_loop_from data2 l1').
    destruct (extract_loop data2 []) as [l2' | e2]; cbn [bind_result fst];
      [| reflexivity].
    intros [H | H]; discriminate.
Qed.

(** X4. The error that is logged is that of the first record that fails:
    the records after it are not looked at. *)
Theorem getting_relevant_data_first_failure
  (pre : list json) (record : json) (post : list json) (e : exn) :
  Forall (fun r => exists o, extract_one r = Ok o) pre ->
  extract_one record = Raise e ->
  getting_relevant_data (pre ++ record :: post)%list
  = (None, [(ERROR, "Error extracting relevant data: " ++ exn_str e)]).
Proof.
  intros Hpre Hrec. unfold getting_relevant_data. rewrite extract_loop_app.
  assert (Hok : forall acc, exists l, extract_loop pre acc = Ok l).
  { induction Hpre as [| r pre [o Ho] _ IH]; intros acc; cbn [extract_loop].
    - exists acc. reflexivity.
    - rewrite Ho. cbn [bind_result]. destruct o; apply IH. }
  destruct (Hok []) as [l ->]. cbn [bind_result extract_loop].
  rewrite Hrec. reflexivity.
Qed.

Lemma getting_relevant_data_first_failure_witness :
  Forall (fun r => exists o, extract_one r = Ok o)
    [purchase "o1" "p1" "500" "SUCCESS" []]
  /\ extract_one (JInt 7)
     = Raise (AttributeError "'int' object has no attribute 'get'")
  /\ getting_relevant_data
       ([purchase "o1" "p1" "500" "SUCCESS" []] ++ JInt 7 :: [JStr "x"])%list
     = (None,
        [(ERROR,
          "Error extracting relevant data: 'int' object has no attribute 'get'")]).
Proof.
  assert (H : Forall (fun r => exists o, extract_one r = Ok o)
                [purchase "o1" "p1" "500" "SUCCESS" []]).
  { constructor; [eexists; reflexivity | constructor]. }
  split; [exact H |]. split; [reflexivity |].
  exact (getting_relevant_data_first_failure
           [purchase "o1" "p1" "500" "SUCCESS" []] (JInt 7) [JStr "x"]
           (AttributeError "'int' object has no attribute 'get'") H eq_refl).
Defined.

(* ===================================================================== *)
(** * More on [clean_transactions] *)
(* ===================================================================== *)

Lemma any_false_iff {R : Type} (mask : R -> bool) (df : DataFrame R) :
  any mask df = false <-> forall i r, In (i, r) df -> mask r = false.
Proof.
  split.
  - intros H i r. apply any_false. exact H.
  - intros H. unfold any. destruct (existsb _ df) eqn:E; [| reflexivity].
    apply existsb_exists in E as ([i r] & Hin & Hr). cbn [snd] in Hr.
    rewrite (H i r Hin) in Hr. discriminate.
Qed.

Lemma where_length {R : Type} (mask : R -> bool) (df : DataFrame R) :
  List.length (where_ mask df) <= List.length df.
Proof.
  unfold where_. induction df as [| ir df IH]; cbn; [lia |].
  destruct (mask (snd ir)); cbn; lia.
Qed.

Lemma where_same_all {R : Type} (mask : R -> bool) (df : DataFrame R) :
  where_ mask df = df -> forall i r, In (i, r) df -> mask r = true.
Proof.
  induction df as [| [j x] df IH]; intros H i r Hin; [destruct Hin |].
  unfold where_ in H. cbn [filter snd] in H.
  destruct (mask x) eqn:E.
  - injection H as H. destruct Hin as [[= <- <-] | Hin]; [exact E |].
    exact (IH H i r Hin).
  - exfalso. pose proof (where_length mask df) as Hlen.
    unfold where_ in Hlen. rewrite H in Hlen. cbn in Hlen. lia.
Qed.

Lemma where_where {R : Type} (p q : R -> bool) (df : DataFrame R) :
  where_ q (where_ p df) = where_ (fun r => p r && q r) df.
Proof.
  unfold where_. induction df as [| ir df IH]; cbn; [reflexivity |].
  destruct (p (snd ir)); cbn; [| exact IH].
  destruct (q (snd ir)); cbn; [rewrite IH; reflexivity | exact IH].
Qed.

Lemma where_shorter {R : Type} (mask : R -> bool) (df : DataFrame R) :
  any (fun r => negb (mask r)) df = true ->
  List.length (where_ mask df) < List.length df.
Proof.
  unfold any, where_. induction df as [| ir df IH]; cbn; [discriminate |].
  destruct (mask (snd ir)); cbn.
  - intros H. specialize (IH H). lia.
  - intros _. pose proof (where_length mask df) as H. unfold where_ in H. lia.
Qed.

(** X5. [clean_transactions] keeps, in their order and with their labels,
    exactly the rows that have both an order id and a payment id.  It warns
    once for each of the two keys that it found missing, and it is silent
    exactly when it returns the frame as it got it. *)
Theorem clean_transactions_keeps_rows_with_both_keys
  (df : DataFrame TransactionRecord) :
  exists log,
    clean_transactions df
    = (Ok (where_ (fun t => negb (isnull (order_id t))
                            && negb (isnull (payment_id t))) df), log)
    /\ Forall (fun rec => fst rec = WARNING) log
    /\ (log = []
        <-> where_ (fun t => negb (isnull (order_id t))
                             && negb (isnull (payment_id t))) df = df).
Proof.
  rewrite <- where_where.
  assert (Hdropped : forall (mask : TransactionRecord -> bool) d,
             any mask d = true -> where_ (fun r => negb (mask r)) d <> d).
  { intros mask d Hany H. unfold any in Hany.
    apply existsb_exists in Hany as ([i r] & Hin & Hr). cbn [snd] in Hr.
    pose proof (where_same_all _ _ H i r Hin) as Hall. cbv beta in Hall.
    rewrite Hr in Hall. discriminate. }
  unfold clean_transactions.
  destruct (any (fun r => isnull (order_id r)) df) eqn:E1.
  - cbn [bind_logged logging ret_logged app].
    assert (Hne : where_ (fun r => negb (isnull (payment_id r)))
                    (where_ (fun r => negb (isnull (order_id r))) df) <> df).
    { intros H. apply (Hdropped _ _ E1).
      rewrite where_where in H.
      assert (Hall : forall i r, In (i, r) df -> negb (isnull (order_id r)) = true).
      { intros i r Hin. pose proof (where_same_all _ _ H i r Hin) as Hb.
        cbv beta in Hb. apply andb_true_iff in Hb. tauto. }
      apply where_all. exact Hall. }
    destruct (any (fun r => isnull (payment_id r))
                (where_ (fun r => negb (isnull (order_id r))) df)) eqn:E2;
      cbn [bind_logged logging ret_logged app].
    + eexists. split; [reflexivity |]. split; [repeat constructor |].
      split; [discriminate | intros H; contradiction].
    + pose proof (where_not_any _ _ E2) as W. cbv beta in W. rewrite W in *.
      eexists. split; [reflexivity |]. split; [repeat constructor |].
      split; [discriminate | intros H; contradiction].
  - pose proof (where_not_any _ _ E1) as W1. cbv beta in W1. rewrite W1.
    cbn [bind_logged ret_logged app].
    destruct (any (fun r => isnull (payment_id r)) df) eqn:E2;
      cbn [bind_logged logging ret_logged app].
    + eexists. split; [reflexivity |]. split; [repeat constructor |].
      split; [discriminate |]. intros H. exfalso. exact (Hdropped _ _ E2 H).
    + pose proof (where_not_any _ _ E2) as W2. cbv beta in W2. rewrite W2.
      eexists. split; [reflexivity |]. split; [constructor |].
      split; reflexivity.
Qed.

(* ===================================================================== *)
(** * More on [normalize_amount] *)
(* ===================================================================== *)

Lemma In_assign_amount_usd_cell (df : DataFrame TransactionRecord) :
  forall (col : list float64) (i : nat) (r : CleanedRecord),
    Forall2 (fun ir x => amount_usd_cell (amount (snd ir)) = Ok x) df col ->
    In (i, r) (assign_amount_usd df col) ->
    In (i, fields r) df /\ amount_usd_cell (amount (fields r)) = Ok (amount_usd r).
Proof.
  intros col i r H. unfold assign_amount_usd.
  induction H as [| [j t] x df col Hx _ IH]; cbn [combine map In fst snd].
  - intros [].
  - intros [E | Hin].
    + injection E as <- <-. cbn [fields amount_usd]. split; [left; reflexivity |].
      exact Hx.
    + destruct (IH Hin) as [H1 H2]. split; [right; exact H1 | exact H2].
Qed.

Lemma In_normalize_amount
  (df : DataFrame TransactionRecord) (out : DataFrame CleanedRecord) :
  outcome (normalize_amount df) = Ok out ->
  forall i r,
    In (i, r) out
    <-> In (i, fields r) df
        /\ amount_usd_cell (amount (fields r)) = Ok (amount_usd r)
        /\ gt_zero (amount_usd r) = true.
Proof.
  rewrite outcome_normalize_amount.
  destruct (amount_usd_column df) as [col |] eqn:Ecol; [| discriminate].
  cbn [bind_result]. intros [= <-] i r.
  apply amount_usd_column_Forall2 in Ecol. rewrite In_where. split.
  - intros [Hin Hgt].
    destruct (In_assign_amount_usd_cell df col i r Ecol Hin) as [H1 H2]. tauto.
  - intros (Hin & Hcell & Hgt). split; [| exact Hgt].
    destruct (In_assign_amount_usd df col i (fields r) Ecol Hin) as (x & Hx & Hin').
    rewrite Hcell in Hx. injection Hx as <-.
    destruct r as [t x]. exact Hin'.
Qed.

(** X6. What [normalize_amount] returns, row by row: a row is in the result
    exactly when it is a row of the frame, under the same label and with the
    same ten cells, whose own raw amount gives its [amount_usd], and that
    amount is above zero.  No row is touched by the amount of another. *)
Theorem normalize_amount_rows
  (df : DataFrame TransactionRecord) (out : DataFrame CleanedRecord) :
  outcome (normalize_amount df) = Ok out ->
  forall i r,
    In (i, r) out
    <-> In (i, fields r) df
        /\ amount_usd_cell (amount (fields r)) = Ok (amount_usd r)
        /\ gt_zero (amount_usd r) = true.
Proof.
  rewrite outcome_normalize_amount.
  destruct (amount_usd_column df) as [col |] eqn:Ecol; [| discriminate].
  cbn [bind_result]. intros [= <-] i r.
  apply amount_usd_column_Forall2 in Ecol. rewrite In_where. split.
  - intros [Hin Hgt].
    destruct (In_assign_amount_usd_cell df col i r Ecol Hin) as [H1 H2]. tauto.
  - intros (Hin & Hcell & Hgt). split; [| exact Hgt].
    destruct (In_assign_amount_usd df col i (fields r) Ecol Hin) as (x & Hx & Hin').
    rewrite Hcell in Hx. injection Hx as <-.
    destruct r as [t x]. exact Hin'.
Qed.

Lemma normalize_amount_rows_witness :
  let df := [(0%nat, row_with_amount "250"); (1%nat, row_with_amount "USD")] in
  let out := [(0%nat, mkCleanedRecord (row_with_amount "250")
                        (truediv (float_of_Z 250) (float_of_Z 100)))] in
  outcome (normalize_amount df) = Ok out
  /\ forall i r,
       In (i, r) out
       <-> In (i, fields r) df
           /\ amount_usd_cell (amount (fields r)) = Ok (amount_usd r)
           /\ gt_zero (amount_usd r) = true.
Proof.
  cbv zeta. split; [reflexivity |].
  apply normalize_amount_rows. reflexivity.
Defined.

Lemma str_filter_forallb (keep : ascii -> bool) (s : string) :
  str_forallb keep (str_filter keep s) = true.
Proof.
  induction s as [| c s IH]; cbn; [reflexivity |].
  destruct (keep c) eqn:E; cbn; [rewrite E; exact IH | exact IH].
Qed.

Lemma is_numeric_char_not_space (c : ascii) :
  is_numeric_char c = true -> negb (is_space c) = true.
Proof.
  unfold is_numeric_char. intros H. apply orb_true_iff in H as [H | H].
  - rewrite (is_digit_not_space c H). reflexivity.
  - apply Ascii.eqb_eq in H. subst c. reflexivity.
Qed.

Lemma str_strip_numeric (s : string) :
  str_forallb is_numeric_char s = true -> str_strip s = s.
Proof.
  intros H.
  assert (Hns : str_forallb (fun c => negb (is_space c)) s = true).
  { apply (str_forallb_impl is_numeric_char); [| exact H].
    apply is_numeric_char_not_space. }
  unfold str_strip. rewrite (lstrip_no_space s Hns). apply rstrip_no_space, Hns.
Qed.

Lemma numeral_of_stripped (a : cell) :
  numeral_of a = replace_empty (strip_non_numeric (astype_str a)).
Proof.
  unfold numeral_of. rewrite str_strip_numeric; [reflexivity |].
  apply str_filter_forallb.
Qed.

(** Among digits and points, the digits are the characters that are not
    points. *)
Lemma digits_iff_no_point (s : string) :
  str_forallb is_numeric_char s = true ->
  (str_forallb is_digit s = true <-> count_points s = 0%nat).
Proof.
  induction s as [| c s IH]; cbn [str_forallb count_points]; [tauto |].
  intros H. apply andb_true_iff in H as [Hc Hs]. specialize (IH Hs).
  unfold is_numeric_char in Hc. rewrite andb_true_iff.
  destruct (Ascii.eqb_spec c ".") as [-> | Hne].
  - cbn. split; [intros [H _]; discriminate | discriminate].
  - rewrite orb_false_r in Hc. rewrite Hc. cbn. tauto.
Qed.

Lemma digits_nonempty_iff (s : string) :
  str_forallb is_digit s = true ->
  (str_existsb is_digit s = true <-> s <> EmptyString).
Proof.
  destruct s as [| c s]; cbn.
  - intros _. split; [discriminate | intros H; contradiction].
  - intros H. apply andb_true_iff in H as [-> _]. cbn.
    split; [discriminate | reflexivity].
Qed.

Lemma split_point_spec (s : string) :
  forall ip o,
    split_point s = (ip, o) ->
    count_points ip = 0%nat
    /\ match o with
       | None => s = ip
       | Some fp => s = ip ++ String "." fp
       end.
Proof.
  induction s as [| c s IH]; intros ip o; cbn [split_point].
  - intros [= <- <-]. split; reflexivity.
  - destruct (Ascii.eqb_spec c ".") as [-> | Hne].
    + intros [= <- <-]. split; reflexivity.
    + destruct (split_point s) as [a b]. intros [= <- <-].
      destruct (IH a b eq_refl) as [Ha Hb]. split.
      * cbn [count_points]. apply Ascii.eqb_neq in Hne. rewrite Hne. exact Ha.
      * destruct b as [fp |]; cbn [append]; rewrite Hb at 1; reflexivity.
Qed.

Lemma str_forallb_app (p : ascii -> bool) (s t : string) :
  str_forallb p (s ++ t) = str_forallb p s && str_forallb p t.
Proof.
  induction s as [| c s IH]; cbn; [reflexivity |].
  rewrite IH, andb_assoc. reflexivity.
Qed.

Lemma str_existsb_app (p : ascii -> bool) (s t : string) :
  str_existsb p (s ++ t) = str_existsb p s || str_existsb p t.
Proof.
  induction s as [| c s IH]; cbn; [reflexivity |].
  rewrite IH, orb_assoc. reflexivity.
Qed.

Lemma count_points_app (s t : string) :
  count_points (s ++ t) = (count_points s + count_points t)%nat.
Proof.
  induction s as [| c s IH]; cbn; [reflexivity |]. rewrite IH. lia.
Qed.

(** [float] reads a string of digits and points exactly when it has at most
    one point and at least one digit. *)
Lemma py_float_reads_numerals (s : string) :
  str_forallb is_numeric_char s = true ->
  ((exists x, py_float s = Ok x) <-> numeral_shape s = true).
Proof.
  intros Hnum. unfold py_float, numeral_shape.
  destruct (split_point s) as [ip o] eqn:E.
  destruct (split_point_spec s ip o E) as [Hip Hs].
  destruct o as [fp |].
  - subst s. rewrite str_forallb_app in Hnum.
    apply andb_true_iff in Hnum as [Hnip Hnfp].
    cbn [str_forallb] in Hnfp. apply andb_true_iff in Hnfp as [_ Hnfp].
    pose proof (proj2 (digits_iff_no_point ip Hnip) Hip) as Hdip.
    rewrite Hdip. cbn [andb].
    assert (Hcount : count_points (ip ++ String "." fp) = S (count_points fp)).
    { rewrite count_points_app, Hip. reflexivity. }
    assert (Hex : str_existsb is_digit (ip ++ String "." fp)
                  = str_existsb is_digit ip || str_existsb is_digit fp).
    { rewrite str_existsb_app. reflexivity. }
    rewrite Hcount, Hex.
    destruct (str_forallb is_digit fp) eqn:Edfp.
    + pose proof (proj1 (digits_iff_no_point fp Hnfp) Edfp) as Hcfp.
      rewrite Hcfp. replace ((1 <=? 1)%nat) with true by reflexivity.
      cbn [andb].
      assert (Hd : str_forallb is_digit (ip ++ fp) = true).
      { rewrite str_forallb_app, Hdip, Edfp. reflexivity. }
      pose proof (digits_nonempty_iff (ip ++ fp) Hd) as Hne.
      rewrite str_existsb_app in Hne.
      destruct (String.eqb_spec (ip ++ fp) EmptyString) as [Hempty | Hnempty];
        cbn [negb].
      * split; [intros [x Hx]; discriminate |].
        intros H. apply Hne in H. contradiction.
      * split; [intros _; apply Hne; exact Hnempty | intros _; eexists; reflexivity].
    + cbn [andb]. split; [intros [x Hx]; discriminate |].
      intros H. apply andb_true_iff in H as [H _].
      apply Nat.leb_le in H.
      assert (Hcfp : count_points fp = 0%nat) by lia.
      apply (digits_iff_no_point fp Hnfp) in Hcfp. congruence.
  - subst s.
    pose proof (proj2 (digits_iff_no_point ip Hnum) Hip) as Hdip.
    rewrite Hdip, Hip. replace ((0 <=? 1)%nat) with true by reflexivity.
    cbn [andb].
    pose proof (digits_nonempty_iff ip Hdip) as Hne.
    destruct (String.eqb_spec ip EmptyString) as [Hempty | Hnempty]; cbn [negb].
    + split; [intros [x Hx]; discriminate |].
      intros H. apply Hne in H. contradiction.
    + split; [intros _; apply Hne; exact Hnempty | intros _; eexists; reflexivity].
Qed.

Lemma parsed_amount_raises_iff (a : cell) :
  (exists e, parsed_amount a = Raise e)
  <-> strip_non_numeric (astype_str a) <> EmptyString
      /\ numeral_shape (strip_non_numeric (astype_str a)) = false.
Proof.
  unfold parsed_amount. rewrite numeral_of_stripped. unfold replace_empty.
  set (s := strip_non_numeric (astype_str a)).
  assert (Hnum : str_forallb is_numeric_char s = true)
    by apply str_filter_forallb.
  pose proof (py_float_reads_numerals s Hnum) as Hread.
  destruct (String.eqb_spec s EmptyString) as [Hempty | Hnempty].
  - split; [intros [e He]; discriminate | intros [H _]; contradiction].
  - destruct (py_float s) as [x | e] eqn:E.
    + split; [intros [e He]; discriminate |].
      intros [_ H]. assert (Hs : numeral_shape s = true)
        by (apply Hread; eexists; reflexivity). congruence.
    + split; [| intros _; eexists; reflexivity].
      intros _. split; [exact Hnempty |].
      destruct (numeral_shape s) eqn:Es; [| reflexivity].
      destruct (proj2 Hread eq_refl) as [x Hx]. discriminate.
Qed.

Lemma amount_usd_cell_raises_iff (a : cell) :
  (exists e, amount_usd_cell a = Raise e) <-> (exists e, parsed_amount a = Raise e).
Proof.
  unfold amount_usd_cell. destruct (parsed_amount a) as [y | e]; cbn [bind_result].
  - split; intros [e He]; discriminate.
  - split; intros _; eexists; reflexivity.
Qed.

Lemma amount_usd_column_raises_iff (df : DataFrame TransactionRecord) :
  (exists e, amount_usd_column df = Raise e)
  <-> Exists (fun ir => exists e, amount_usd_cell (amount (snd ir)) = Raise e) df.
Proof.
  induction df as [| ir df IH].
  - split; [intros [e He]; discriminate | intros H; inversion H].
  - rewrite amount_usd_column_cons, Exists_cons, <- IH.
    destruct (amount_usd_cell (amount (snd ir))) as [x | e]; cbn [bind_result].
    + destruct (amount_usd_column df) as [col | e]; cbn [bind_result].
      * split; [intros [e He]; discriminate |].
        intros [[e He] | [e He]]; discriminate.
      * split; intros _; [right |]; eexists; reflexivity.
    + split; intros _; [left |]; eexists; reflexivity.
Qed.

(** X7. [normalize_amount] raises, and returns no frame at all, exactly
    when the amount of some row, once stripped to its digits and points, is
    not empty and is no numeral: it has two points or more, or no digit.
    Of its three log records only the first, the count of cents, is then
    written. *)
Theorem normalize_amount_raises_iff (df : DataFrame TransactionRecord) :
  ((exists e, outcome (normalize_amount df) = Raise e)
   <-> Exists
         (fun ir =>
            strip_non_numeric (astype_str (amount (snd ir))) <> EmptyString
            /\ numeral_shape (strip_non_numeric (astype_str (amount (snd ir))))
               = false)
         df)
  /\ ((exists e, outcome (normalize_amount df) = Raise e) ->
      snd (normalize_amount df)
      = [(INFO,
          "Identified " ++ nat_str (count_true (cents_rep df))
          ++ " records in amount column that appear to be in cents format.")]).
Proof.
  split.
  - rewrite outcome_normalize_amount.
    assert (Hcol : (exists e,
                      (col <- amount_usd_column df ;;
                       Ok (where_ (fun r => gt_zero (amount_usd r))
                             (assign_amount_usd df col)))%py = Raise e)
                   <-> exists e, amount_usd_column df = Raise e).
    { destruct (amount_usd_column df) as [col | e]; cbn [bind_result].
      - split; intros [e He]; discriminate.
      - split; intros _; eexists; reflexivity. }
    rewrite Hcol, amount_usd_column_raises_iff, !Exists_exists.
    split; intros (ir & Hin & H); exists ir; (split; [exact Hin |]).
    + apply parsed_amount_raises_iff, amount_usd_cell_raises_iff, H.
    + apply amount_usd_cell_raises_iff, parsed_amount_raises_iff, H.
  - rewrite outcome_normalize_amount. unfold normalize_amount.
    destruct (amount_usd_column df) as [col | e]; cbn [bind_result].
    + intros [e He]. discriminate.
    + intros _. reflexivity.
Qed.

Lemma binary_round_aux_sign_clear (m e : Z) (l : location) :
  sign_clear (binary_round_aux prec emax false m e l) = true.
Proof.
  unfold binary_round_aux.
  destruct (shr_fexp prec emax m e l) as [mrs1 e1].
  destruct (shr_fexp prec emax _ e1 loc_Exact) as [mrs2 e2].
  destruct (shr_m mrs2); [reflexivity | | reflexivity].
  destruct (e2 <=? emax - prec)%Z; reflexivity.
Qed.

Lemma SFdiv_sign_clear (x y : float64) :
  sign_clear x = true -> sign_clear y = true ->
  sign_clear (SFdiv prec emax x y) = true.
Proof.
  destruct x as [sx | sx | | sx mx ex], y as [sy | sy | | sy my ey];
    cbn [sign_clear SFdiv]; intros Hx Hy;
    try apply negb_true_iff in Hx; try apply negb_true_iff in Hy;
    subst; try reflexivity.
  destruct (SFdiv_core_binary prec emax (Zpos mx) ex (Zpos my) ey) as [[mz ez] lz].
  apply binary_round_aux_sign_clear.
Qed.

Lemma exact_of_Z_sign_clear (n : Z) :
  (0 <= n)%Z -> sign_clear (exact_of_Z n) = true.
Proof. destruct n; cbn; [reflexivity | reflexivity | lia]. Qed.

Lemma float_of_decimal_sign_clear (m : Z) (k : nat) :
  (0 <= m)%Z -> sign_clear (float_of_decimal m k) = true.
Proof.
  intros Hm. unfold float_of_decimal. apply SFdiv_sign_clear.
  - apply exact_of_Z_sign_clear. exact Hm.
  - apply exact_of_Z_sign_clear. apply Z.pow_nonneg. lia.
Qed.

Lemma digits_value_nonneg (s : string) :
  str_forallb is_digit s = true -> (0 <= digits_value s)%Z.
Proof.
  intros H. unfold digits_value.
  apply (digits_value_from_ge s 0%Z H). lia.
Qed.

Lemma py_float_sign_clear (s : string) (x : float64) :
  py_float s = Ok x -> sign_clear x = true.
Proof.
  unfold py_float. destruct (split_point s) as [ip [fp |]].
  - destruct (str_forallb is_digit ip) eqn:Eip; [| discriminate].
    destruct (str_forallb is_digit fp) eqn:Efp; [| discriminate].
    cbn [andb]. destruct (negb _); [| discriminate].
    intros [= <-]. apply float_of_decimal_sign_clear, digits_value_nonneg.
    rewrite str_forallb_app, Eip, Efp. reflexivity.
  - destruct (str_forallb is_digit ip) eqn:Eip; [| discriminate].
    cbn [andb]. destruct (negb _); [| discriminate].
    intros [= <-]. apply float_of_decimal_sign_clear, digits_value_nonneg, Eip.
Qed.

(** X8. The [amount_usd] that [normalize_amount] computes for a cell is
    never below zero, and never the negative zero: whatever the raw amount,
    its sign is lost with the other characters that are stripped. *)
Theorem amount_usd_is_never_negative (a : cell) (x : float64) :
  amount_usd_cell a = Ok x -> sign_clear x = true.
Proof.
  intros H. apply amount_usd_cell_inv in H as (y & Hy & ->).
  assert (Hsy : sign_clear y = true).
  { unfold parsed_amount in Hy. destruct (numeral_of a) as [s |].
    - exact (py_float_sign_clear s y Hy).
    - injection Hy as <-. reflexivity. }
  destruct (is_cent _); [| exact Hsy].
  apply SFdiv_sign_clear; [exact Hsy | reflexivity].
Qed.

Lemma amount_usd_is_never_negative_witness :
  amount_usd_cell (Some "-12.75")
  = Ok (truediv (float_of_Z 51) (float_of_Z 4))
  /\ sign_clear (truediv (float_of_Z 51) (float_of_Z 4)) = true.
Proof.
  split; [reflexivity |].
  exact (amount_usd_is_never_negative (Some "-12.75") _ eq_refl).
Defined.

Lemma gt_zero_not_nan_not_zero (x : float64) :
  gt_zero x = true -> isnan x = false /\ eq_zero x = false.
Proof. destruct x as [s | [] | | [] m e]; cbn; try discriminate; split; reflexivity. Qed.

(** X9. On a frame whose amounts are all above zero, as every frame that
    [normalize_amount] returns is, [remove_null_amounts] and
    [remove_zero_amounts] find nothing: they return the frame as it is and
    log nothing. *)
Theorem null_and_zero_filters_find_nothing (df : DataFrame CleanedRecord) :
  (forall i r, In (i, r) df -> gt_zero (amount_usd r) = true) ->
  remove_null_amounts df = (Ok df, [])
  /\ remove_zero_amounts df = (Ok df, []).
Proof.
  intros H. unfold remove_null_amounts, remove_zero_amounts.
  assert (H1 : any (fun r => isnan (amount_usd r)) df = false).
  { apply any_false_iff. intros i r Hin.
    apply (gt_zero_not_nan_not_zero _ (H i r Hin)). }
  assert (H2 : any (fun r => eq_zero (amount_usd r)) df = false).
  { apply any_false_iff. intros i r Hin.
    apply (gt_zero_not_nan_not_zero _ (H i r Hin)). }
  rewrite H1, H2. split; reflexivity.
Qed.

Lemma null_and_zero_filters_find_nothing_witness :
  exists out,
    outcome (normalize_amount
               [(0%nat, row_with_amount "250"); (1%nat, row_with_amount "0")])
    = Ok out
    /\ (forall i r, In (i, r) out -> gt_zero (amount_usd r) = true)
    /\ remove_null_amounts out = (Ok out, [])
    /\ remove_zero_amounts out = (Ok out, []).
Proof.
  eexists. split; [reflexivity |].
  assert (H : forall i r,
             In (i, r)
               [(0%nat, mkCleanedRecord (row_with_amount "250")
                          (truediv (float_of_Z 250) (float_of_Z 100)))] ->
             gt_zero (amount_usd r) = true).
  { intros i r [[= <- <-] | []]. reflexivity. }
  split; [exact H |].
  exact (null_and_zero_filters_find_nothing _ H).
Defined.

(** X10. A row whose raw amount holds neither a digit nor a point, a
    missing amount among them, raises nothing and is dropped: its
    [amount_usd] is the NaN, which is not above zero. *)
Theorem amount_without_digit_is_dropped
  (df : DataFrame TransactionRecord) (out : DataFrame CleanedRecord)
  (i : nat) (r : CleanedRecord) :
  strip_non_numeric (astype_str (amount (fields r))) = EmptyString ->
  outcome (normalize_amount df) = Ok out ->
  amount_usd_cell (amount (fields r)) = Ok nan /\ ~ In (i, r) out.
Proof.
  intros Hstrip Hout.
  assert (Hcell : amount_usd_cell (amount (fields r)) = Ok nan).
  { unfold amount_usd_cell, parsed_amount. rewrite numeral_of_stripped, Hstrip.
    cbn [replace_empty String.eqb bind_result].
    destruct (is_cent _); reflexivity. }
  split; [exact Hcell |]. intros Hin.
  apply (In_normalize_amount df out Hout) in Hin as (_ & Hx & Hgt).
  rewrite Hcell in Hx. injection Hx as Hx. rewrite <- Hx in Hgt. discriminate.
Qed.

Lemma amount_without_digit_is_dropped_witness :
  let t := mkTransactionRecord (Some "o1") None (Some "p1") None (Some "USD")
             None FlagsNone None None None in
  strip_non_numeric (astype_str (amount t)) = EmptyString
  /\ outcome (normalize_amount [(0%nat, t); (1%nat, row_with_amount "250")])
     = Ok [(1%nat, mkCleanedRecord (row_with_amount "250")
                     (truediv (float_of_Z 250) (float_of_Z 100)))]
  /\ amount_usd_cell (amount t) = Ok nan
  /\ ~ In (0%nat, mkCleanedRecord t nan)
         [(1%nat, mkCleanedRecord (row_with_amount "250")
                    (truediv (float_of_Z 250) (float_of_Z 100)))].
Proof.
  cbv zeta. split; [reflexivity |]. split; [reflexivity |].
  exact (amount_without_digit_is_dropped
           [(0%nat, mkTransactionRecord (Some "o1") None (Some "p1") None
                      (Some "USD") None FlagsNone None None None);
            (1%nat, row_with_amount "250")]
           _ 0%nat
           (mkCleanedRecord
              (mkTransactionRecord (Some "o1") None (Some "p1") None
                 (Some "USD") None FlagsNone None None None) nan)
           eq_refl eq_refl).
Defined.

(* ===================================================================== *)
(** * More on the filters *)
(* ===================================================================== *)

Lemma where_changes {R : Type} (mask : R -> bool) (df : DataFrame R) :
  any mask df = true -> where_ (fun r => negb (mask r)) df <> df.
Proof.
  intros Hany H. unfold any in Hany.
  apply existsb_exists in Hany as ([i r] & Hin & Hr). cbn [snd] in Hr.
  pose proof (where_same_all _ _ H i r Hin) as Hall. cbv beta in Hall.
  rewrite Hr in Hall. discriminate.
Qed.

Lemma label_in_frame {R : Type} (df : DataFrame R) (i : nat) (r : R) :
  In (i, r) df -> In i (map fst df).
Proof. intros H. apply in_map_iff. exists (i, r). split; [reflexivity | exact H]. Qed.

Lemma unique_label_row {R : Type} (df : DataFrame R) :
  NoDup (map fst df) ->
  forall i r r', In (i, r) df -> In (i, r') df -> r = r'.
Proof.
  induction df as [| [j x] df IH]; intros Hnd i r r' H1 H2; [destruct H1 |].
  cbn [map fst] in Hnd. inversion Hnd as [| ? ? Hnotin Hnd']; subst.
  destruct H1 as [E1 | H1], H2 as [E2 | H2].
  - congruence.
  - exfalso. apply Hnotin. inversion E1; subst.
    exact (label_in_frame df i r' H2).
  - exfalso. apply Hnotin. inversion E2; subst.
    exact (label_in_frame df i r H1).
  - exact (IH Hnd' i r r' H1 H2).
Qed.

Lemma unique_labels_where {R : Type} (mask : R -> bool) (df : DataFrame R) :
  NoDup (map fst df) -> NoDup (map fst (where_ mask df)).
Proof.
  unfold where_. induction df as [| [j x] df IH]; cbn [filter map fst snd];
    intros Hnd; [constructor |].
  inversion Hnd as [| ? ? Hnotin Hnd']; subst.
  destruct (mask x); cbn [map fst]; [| exact (IH Hnd')].
  constructor; [| exact (IH Hnd')].
  intros Hin. apply Hnotin. apply in_map_iff in Hin as ([i r] & E & Hin).
  cbn in E. subst i. apply filter_In in Hin as [Hin _].
  exact (label_in_frame df j r Hin).
Qed.

(** With labels that are all different, dropping the labels of the rows
    that match is dropping the rows that match. *)
Lemma drop_index_where {R : Type} (mask : R -> bool) (df : DataFrame R) :
  NoDup (map fst df) ->
  drop (index_where mask df) df = where_ (fun r => negb (mask r)) df.
Proof.
  intros Hnd. unfold drop, where_. apply filter_ext_in. intros [i r] Hin.
  cbn [fst snd]. f_equal.
  destruct (mask r) eqn:Er.
  - apply existsb_exists. exists i. split; [| apply Nat.eqb_refl].
    apply In_index_where. exists r. split; assumption.
  - destruct (existsb (Nat.eqb i) (index_where mask df)) eqn:E; [| reflexivity].
    apply existsb_exists in E as (j & Hj & Hij). apply Nat.eqb_eq in Hij. subst j.
    apply In_index_where in Hj as (r' & Hin' & Hr').
    rewrite (unique_label_row df Hnd i r r' Hin Hin') in Er. congruence.
Qed.

(** X11. On a frame whose labels are all different, as the frames of the
    script are, [remove_test_transactions] keeps, in their order, exactly
    the rows whose flags hold neither ["test"] nor ["sandbox"]; a row whose
    flags are missing stays.  It warns once when it drops, and is silent
    exactly when it returns the frame as it got it. *)
Theorem remove_test_transactions_exact (df : DataFrame CleanedRecord) :
  NoDup (map fst df) ->
  exists log,
    remove_test_transactions df
    = (Ok (where_
             (fun r => negb (str_contains "test" (flags (fields r)))
                       && negb (str_contains "sandbox" (flags (fields r)))) df),
       log)
    /\ Forall (fun rec => fst rec = WARNING) log
    /\ (log = []
        <-> where_
              (fun r => negb (str_contains "test" (flags (fields r)))
                        && negb (str_contains "sandbox" (flags (fields r)))) df
            = df)
    /\ (forall i r s,
          In (i, r) df -> flags (fields r) = FlagsStr s ->
          (In (i, r)
              (where_
                 (fun r => negb (str_contains "test" (flags (fields r)))
                           && negb (str_contains "sandbox" (flags (fields r)))) df)
           <-> ~ substring_of "test" s /\ ~ substring_of "sandbox" s))
    /\ (forall i r,
          In (i, r) df -> flags (fields r) = FlagsNone ->
          In (i, r)
             (where_
                (fun r => negb (str_contains "test" (flags (fields r)))
                          && negb (str_contains "sandbox" (flags (fields r)))) df)).
Proof.
  intros Hnd.
  set (kept := where_
                 (fun r => negb (str_contains "test" (flags (fields r)))
                           && negb (str_contains "sandbox" (flags (fields r)))) df).
  assert (Hrows1 : forall i r s,
             In (i, r) df -> flags (fields r) = FlagsStr s ->
             (In (i, r) kept
              <-> ~ substring_of "test" s /\ ~ substring_of "sandbox" s)).
  { intros i r s Hin Hs. unfold kept. rewrite In_where, Hs. cbn [str_contains].
    rewrite andb_true_iff, !negb_true_iff, !contains_false_spec. tauto. }
  assert (Hrows2 : forall i r,
             In (i, r) df -> flags (fields r) = FlagsNone -> In (i, r) kept).
  { intros i r Hin Hs. unfold kept. rewrite In_where, Hs. tauto. }
  unfold remove_test_transactions.
  destruct (any (fun r => str_contains "test" (flags (fields r))) df
            || any (fun r => str_contains "sandbox" (flags (fields r))) df) eqn:E.
  - cbn [bind_logged logging ret_logged app].
    rewrite (drop_index_where _ df Hnd).
    rewrite (drop_index_where _ _ (unique_labels_where _ df Hnd)).
    rewrite where_where. fold kept.
    eexists. split; [reflexivity |]. split; [repeat constructor |].
    split; [| split; assumption].
    split; [discriminate |]. intros H. exfalso.
    apply orb_true_iff in E as [E | E]; unfold any in E;
      apply existsb_exists in E as ([i r] & Hin & Hr); cbn [snd] in Hr;
      pose proof (where_same_all _ _ H i r Hin) as Hall; cbv beta in Hall;
      rewrite Hr in Hall; cbn in Hall;
      [discriminate | rewrite andb_false_r in Hall; discriminate].
  - apply orb_false_iff in E as [E1 E2].
    assert (Hsame : kept = df).
    { unfold kept. apply where_all. intros i r Hin.
      rewrite (any_false _ df i r E1 Hin), (any_false _ df i r E2 Hin).
      reflexivity. }
    rewrite Hsame in *.
    eexists. split; [reflexivity |]. split; [constructor |].
    split; [split; reflexivity | split; assumption].
Qed.

Lemma remove_test_transactions_exact_witness :
  let df :=
    [ (0%nat, twin_row (FlagsStr "promo,contest"));
      (3%nat, twin_row FlagsNone);
      (4%nat, twin_row (FlagsStr "TEST")) ] in
  NoDup (map fst df)
  /\ remove_test_transactions df
     = (Ok [ (3%nat, twin_row FlagsNone); (4%nat, twin_row (FlagsStr "TEST")) ],
        [(WARNING,
          "Transactions flagged as test found. Removing transactions flagged as test from the dataset.")]).
Proof.
  cbv zeta.
  assert (Hnd : NoDup (map fst
                         [ (0%nat, twin_row (FlagsStr "promo,contest"));
                           (3%nat, twin_row FlagsNone);
                           (4%nat, twin_row (FlagsStr "TEST")) ])).
  { cbn. repeat constructor; cbn; intuition discriminate. }
  split; [exact Hnd |].
  destruct (remove_test_transactions_exact _ Hnd) as (log & Hrun & _).
  reflexivity.
Defined.

Lemma isnan_spec (x : float64) : isnan x = true <-> x = S754_nan.
Proof. destruct x; cbn; split; congruence. Qed.

Lemma eq_zero_spec (x : float64) : eq_zero x = true <-> exists s, x = S754_zero s.
Proof.
  destruct x as [s | [] | | [] m e]; cbn; split;
    try discriminate; try (intros [s' H]; discriminate).
  - intros _. exists s. reflexivity.
  - reflexivity.
Qed.

Lemma detect_then_drop_run {R : Type} (mask : R -> bool) (msg : string)
  (df : DataFrame R) :
  exists log,
    (if any mask df
     then (logging WARNING msg ;;;
           ret_logged (where_ (fun r => negb (mask r)) df))%logged
     else ret_logged df)
    = (Ok (where_ (fun r => negb (mask r)) df), log)
    /\ (log = [] <-> where_ (fun r => negb (mask r)) df = df)
    /\ (log <> [] ->
        log = [(WARNING, msg)]
        /\ List.length (where_ (fun r => negb (mask r)) df) < List.length df).
Proof.
  destruct (any mask df) eqn:E.
  - cbn [bind_logged logging ret_logged app]. eexists.
    split; [reflexivity |]. split.
    + split; [discriminate |]. intros H. exfalso.
      exact (where_changes mask df E H).
    + intros _. split; [reflexivity |]. apply where_shorter.
      unfold any in *. apply existsb_exists in E as (ir & Hin & Hr).
      apply existsb_exists. exists ir.
      split; [exact Hin | rewrite negb_involutive; exact Hr].
  - rewrite (where_not_any _ _ E). eexists. split; [reflexivity |].
    split; [split; reflexivity | intros H; contradiction].
Qed.

(** X12. The two amount filters, each taken alone: [remove_null_amounts]
    drops exactly the rows whose [amount_usd] is the NaN, and
    [remove_zero_amounts] exactly those whose [amount_usd] is a zero, of
    either sign, so that it keeps the NaN and the amounts below zero.  Each
    warns once when it drops a row and is silent exactly when it returns the
    frame as it got it. *)
Theorem amount_filters_drop_and_warn (df : DataFrame CleanedRecord) :
  (exists out log,
     remove_null_amounts df = (Ok out, log)
     /\ (forall i r, In (i, r) out <-> In (i, r) df /\ amount_usd r <> S754_nan)
     /\ (log = [] <-> out = df)
     /\ (log <> [] -> List.length out < List.length df))
  /\ (exists out log,
        remove_zero_amounts df = (Ok out, log)
        /\ (forall i r,
              In (i, r) out
              <-> In (i, r) df /\ forall s, amount_usd r <> S754_zero s)
        /\ (log = [] <-> out = df)
        /\ (log <> [] -> List.length out < List.length df)).
Proof.
  split.
  - destruct (detect_then_drop_run (fun r => isnan (amount_usd r))
                "Null values found in amount_usd column. Dropping rows with null amounts."
                df) as (log & Hrun & Hsilent & Hwarn).
    eexists. exists log. split; [exact Hrun |].
    split; [| split; [exact Hsilent | intros H; apply Hwarn; exact H]].
    intros i r. rewrite In_where, negb_true_iff.
    rewrite <- isnan_spec. destruct (isnan (amount_usd r)); intuition congruence.
  - destruct (detect_then_drop_run (fun r => eq_zero (amount_usd r))
                "Zero values found in amount_usd column. Dropping rows with zero amounts."
                df) as (log & Hrun & Hsilent & Hwarn).
    eexists. exists log. split; [exact Hrun |].
    split; [| split; [exact Hsilent | intros H; apply Hwarn; exact H]].
    intros i r. rewrite In_where, negb_true_iff.
    pose proof (eq_zero_spec (amount_usd r)) as Hz.
    destruct (eq_zero (amount_usd r)).
    + split; [intros [_ H]; discriminate |].
      intros [_ H]. destruct (proj1 Hz eq_refl) as [s Hs]. exfalso. exact (H s Hs).
    + split; [| tauto]. intros [Hin _]. split; [exact Hin |].
      intros s Hs. assert (Ht : false = true) by (apply Hz; exists s; exact Hs).
      discriminate.
Qed.

(** X13. [drop_failed_pending_payments] drops exactly the rows whose status
    is the string ["FAILED"] or the string ["PENDING"], letter for letter:
    a row without a status stays.  It warns once when it drops a row and is
    silent exactly when it returns the frame as it got it. *)
Theorem drop_failed_pending_payments_exact (df : DataFrame CleanedRecord) :
  exists out log,
    drop_failed_pending_payments df = (Ok out, log)
    /\ (forall i r,
          In (i, r) out
          <-> In (i, r) df
              /\ payment_status (fields r) <> Some "FAILED"
              /\ payment_status (fields r) <> Some "PENDING")
    /\ (log = [] <-> out = df)
    /\ (log <> [] -> List.length out < List.length df).
Proof.
  destruct (detect_then_drop_run
              (fun r => isin_failed_pending (payment_status (fields r)))
              "Failed or pending payments found in payment_status column. Dropping rows with failed or pending payments."
              df) as (log & Hrun & Hsilent & Hwarn).
  eexists. exists log. split; [exact Hrun |].
  split; [| split; [exact Hsilent | intros H; apply Hwarn; exact H]].
  intros i r. rewrite In_where, negb_true_iff. split.
  - intros [Hin H]. apply isin_failed_pending_false in H. tauto.
  - intros (Hin & Hf & Hp). split; [exact Hin |].
    destruct (payment_status (fields r)) as [s |]; [| reflexivity].
    cbn. apply orb_false_iff. split; apply String.eqb_neq; congruence.
Qed.

Lemma keep_first_from_length (df : DataFrame CleanedRecord) :
  forall seen,
    List.length (keep_first_from seen df) <= List.length df
    /\ (existsb (fun b => b) (duplicated_from seen df) = true ->
        List.length (keep_first_from seen df) < List.length df).
Proof.
  induction df as [| [i r] df IH]; intros seen;
    cbn [keep_first_from duplicated_from existsb length].
  - split; [lia | discriminate].
  - destruct (IH (r :: seen)) as [Hle Hlt].
    destruct (in_dec CleanedRecord_eq_dec r seen); cbn [length orb].
    + split; [lia | intros _; lia].
    + split; [lia |]. intros H. specialize (Hlt H). lia.
Qed.

Lemma no_duplicate_flagged (df : DataFrame CleanedRecord) :
  forall seen,
    NoDup (map snd df) ->
    (forall r, In r (map snd df) -> ~ In r seen) ->
    existsb (fun b => b) (duplicated_from seen df) = false.
Proof.
  induction df as [| [i r] df IH]; intros seen Hnd Hseen; [reflexivity |].
  cbn [duplicated_from existsb]. cbn [map snd] in Hnd, Hseen.
  inversion Hnd as [| ? ? Hnotin Hnd']; subst.
  destruct (in_dec CleanedRecord_eq_dec r seen) as [Hin | _].
  - exfalso. exact (Hseen r (or_introl eq_refl) Hin).
  - cbn [orb]. apply IH; [exact Hnd' |].
    intros x Hx [<- | Hs]; [contradiction |].
    exact (Hseen x (or_intror Hx) Hs).
Qed.

(** X14. [drop_duplicates] returns the frame as it got it, and logs
    nothing, exactly when no two rows of the frame are equal in every
    column; otherwise it warns once and returns fewer rows. *)
Theorem drop_duplicates_silent_iff_no_identical_rows
  (df : DataFrame CleanedRecord) :
  (drop_duplicates df = (Ok df, []) <-> no_identical_rows df)
  /\ (~ no_identical_rows df ->
      exists out,
        drop_duplicates df
        = (Ok out,
           [(WARNING,
             "Duplicate records found in the dataset. Dropping duplicate records.")])
        /\ List.length out < List.length df).
Proof.
  unfold no_identical_rows, drop_duplicates, duplicated.
  destruct (existsb (fun b => b) (duplicated_from [] df)) eqn:E.
  - cbn [bind_logged logging ret_logged app].
    assert (Hdup : ~ NoDup (map snd df)).
    { intros Hnd. rewrite (no_duplicate_flagged df [] Hnd) in E;
        [discriminate | intros r _ []]. }
    split.
    + split; [discriminate | intros H; contradiction].
    + intros _. eexists. split; [reflexivity |].
      rewrite select_keep_first_from.
      apply (keep_first_from_length df []). exact E.
  - assert (Hnd : NoDup (map snd df)).
    { rewrite <- (keep_first_from_no_duplicate df [] E).
      apply keep_first_from_NoDup. }
    split; [split; [intros _; exact Hnd | reflexivity] |].
    intros H. contradiction.
Qed.

(** X15. [fill_na_flags] drops no row and moves none: row for row, the
    label and every cell but [flags] stay, a missing [flags] becomes
    ["normal"], and any other [flags], the empty string among them, stays as
    it is.  It warns once when it fills and is silent exactly when it
    returns the frame as it got it. *)
Theorem fill_na_flags_fills_only_missing_flags (df : DataFrame CleanedRecord) :
  exists out log,
    fill_na_flags df = (Ok out, log)
    /\ Forall2
         (fun ir jr =>
            fst jr = fst ir
            /\ same_but_flags (snd ir) (snd jr)
            /\ flags (fields (snd jr))
               = match flags (fields (snd ir)) with
                 | FlagsNone => FlagsStr "normal"
                 | c => c
                 end)
         df out
    /\ (forall i r, In (i, r) out -> flags (fields r) <> FlagsNone)
    /\ (log = [] <-> out = df)
    /\ (log <> [] ->
        log = [(WARNING,
                "Null values found in flags column. Filling null values with empty string.")]).
Proof.
  exists (apply_flags fillna_normal df).
  assert (Hrows : Forall2
                    (fun ir jr =>
                       fst jr = fst ir
                       /\ same_but_flags (snd ir) (snd jr)
                       /\ flags (fields (snd jr))
                          = match flags (fields (snd ir)) with
                            | FlagsNone => FlagsStr "normal"
                            | c => c
                            end)
                    df (apply_flags fillna_normal df)).
  { unfold apply_flags. induction df as [| [i r] df IH]; cbn [map]; constructor.
    - cbn [fst snd]. split; [reflexivity |].
      destruct (set_flags_same_but_flags fillna_normal r) as [Hsame Hflags].
      split; [exact Hsame |]. rewrite Hflags.
      destruct (flags (fields r)); reflexivity.
    - exact IH. }
  assert (Hfilled : forall i r,
             In (i, r) (apply_flags fillna_normal df) ->
             flags (fields r) <> FlagsNone).
  { intros i r Hin. apply In_apply_flags in Hin as (r0 & _ & ->).
    destruct (set_flags_same_but_flags fillna_normal r0) as [_ ->].
    destruct (flags (fields r0)); discriminate. }
  unfold fill_na_flags.
  destruct (any (fun r => flags_isnull (flags (fields r))) df) eqn:E.
  - cbn [bind_logged logging ret_logged app]. eexists.
    split; [reflexivity |]. split; [exact Hrows |]. split; [exact Hfilled |].
    split; [| intros _; reflexivity].
    split; [discriminate |]. intros H. exfalso.
    unfold any in E. apply existsb_exists in E as ([i r] & Hin & Hr).
    cbn [snd] in Hr. rewrite <- H in Hin. apply Hfilled in Hin.
    destruct (flags (fields r)); [contradiction | discriminate | discriminate].
  - assert (Hsame : apply_flags fillna_normal df = df).
    { apply apply_flags_same. intros i r Hin.
      pose proof (any_false _ df i r E Hin) as Hn. cbv beta in Hn.
      destruct (flags (fields r)); [discriminate | reflexivity | reflexivity]. }
    rewrite Hsame in *. eexists.
    split; [reflexivity |]. split; [exact Hrows |]. split; [exact Hfilled |].
    split; [split; reflexivity | intros H; contradiction].
Qed.

(* ===================================================================== *)
(** * Where the rows of the result come from *)
(* ===================================================================== *)












(* ===================================================================== *)
(** * When the script raises *)
(* ===================================================================== *)

(** X17. On an input without a single record to keep, the empty input
    among them, the script does not return an empty result: the frame built
    from no record has no column, and [clean_transactions] raises on its
    first look at [order_id]. *)
Theorem main_raises_without_retained_event (data : list json) :
  Forall (fun r => heartbeat_event r = true) data ->
  main data
  = Some (Raise (AttributeError "'DataFrame' object has no attribute 'order_id'"),
          [(INFO, "Extracted relevant data shape: (0, 0)")]).
Proof.
  intros Hdata. unfold main, getting_relevant_data.
  assert (Hloop : forall acc, extract_loop data acc = Ok acc).
  { induction Hdata as [| r rest Hr _ IH]; intros acc; cbn [extract_loop];
      [reflexivity |].
    rewrite (extract_one_heartbeat r Hr). cbn [bind_result]. apply IH. }
  rewrite Hloop. reflexivity.
Qed.

Lemma main_raises_without_retained_event_witness :
  Forall (fun r => heartbeat_event r = true) []
  /\ main []
     = Some (Raise (AttributeError "'DataFrame' object has no attribute 'order_id'"),
             [(INFO, "Extracted relevant data shape: (0, 0)")]).
Proof.
  split; [constructor |].
  exact (main_raises_without_retained_event [] (Forall_nil _)).
Defined.

(** X18. When the extraction of some record raises, the script goes on
    with the [None] that [getting_relevant_data] returned, builds a frame
    without columns from it, and raises in [clean_transactions]: the log
    holds the extraction error, then the shape [(0, 0)]. *)
Theorem main_raises_after_failed_extraction (data : list json) :
  Exists (fun record => exists e, extract_one record = Raise e) data ->
  exists e,
    main data
    = Some (Raise (AttributeError "'DataFrame' object has no attribute 'order_id'"),
            [ (ERROR, "Error extracting relevant data: " ++ exn_str e);
              (INFO, "Extracted relevant data shape: (0, 0)") ]).
Proof.
  intros Hex. destruct (extract_loop_raises data Hex []) as [e He].
  exists e. unfold main, getting_relevant_data. rewrite He. reflexivity.
Qed.

Lemma main_raises_after_failed_extraction_witness :
  let data := [purchase "o1" "p1" "500" "SUCCESS" []; JList []] in
  Exists (fun record => exists e, extract_one record = Raise e) data
  /\ exists e,
       main data
       = Some (Raise (AttributeError
                        "'DataFrame' object has no attribute 'order_id'"),
               [ (ERROR, "Error extracting relevant data: " ++ exn_str e);
                 (INFO, "Extracted relevant data shape: (0, 0)") ]).
Proof.
  cbv zeta.
  assert (H : Exists (fun record => exists e, extract_one record = Raise e)
                [purchase "o1" "p1" "500" "SUCCESS" []; JList []]).
  { apply Exists_cons_tl. apply Exists_cons_hd.
    eexists. apply extract_one_not_mapping. reflexivity. }
  split; [exact H |].
  exact (main_raises_after_failed_extraction _ H).
Defined.





(* ===================================================================== *)
(** * Amounts classified as cents *)
(* ===================================================================== *)

Lemma no_char_of_contains_false (a : ascii) (s : string) :
  contains (String a EmptyString) s = false ->
  str_forallb (fun c => negb (Ascii.eqb c a)) s = true.
Proof.
  induction s as [| c s IH]; cbn [contains str_forallb]; [reflexivity |].
  intros H. apply orb_false_iff in H as [Hp Hs]. rewrite (IH Hs), andb_true_r.
  cbn [String.prefix] in Hp.
  destruct (ascii_dec a c) as [-> | Hne].
  - destruct s; discriminate.
  - apply negb_true_iff, Ascii.eqb_neq. congruence.
Qed.

Lemma strip_without_point_is_digits (s : string) :
  str_forallb (fun c => negb (Ascii.eqb c ".")) s = true ->
  str_forallb is_digit (strip_non_numeric s) = true.
Proof.
  unfold strip_non_numeric.
  induction s as [| c s IH]; cbn [str_forallb str_filter]; [reflexivity |].
  intros H. apply andb_true_iff in H as [Hc Hs]. specialize (IH Hs).
  unfold is_numeric_char at 1. apply negb_true_iff in Hc. rewrite Hc, orb_false_r.
  destruct (is_digit c) eqn:Ed; [| exact IH].
  cbn [str_forallb]. rewrite Ed, IH. reflexivity.
Qed.

Lemma is_cent_digits (ds : string) :
  str_forallb is_digit ds = true -> ds <> EmptyString ->
  is_cent (Some ds) = true.
Proof.
  intros H Hne. unfold is_cent. apply String.eqb_neq in Hne. rewrite Hne.
  assert (Habsent : forall a sub,
             (nat_of_ascii a < 48 \/ 57 < nat_of_ascii a)%nat ->
             contains (String a sub) ds = false).
  { intros a sub Ha. apply contains_absent_char.
    apply (str_forallb_impl is_digit); [| exact H].
    intros c. apply is_digit_not_char. exact Ha. }
  rewrite (Habsent "."%char EmptyString) by (cbn; lia).
  rewrite (Habsent "$"%char EmptyString) by (cbn; lia).
  rewrite (Habsent "U"%char "SD") by (cbn; lia).
  reflexivity.
Qed.

(** X20. An amount classified as cents is read as its digits alone: every
    other character, a thousands separator, a space, a letter or a sign, is
    ignored, so that the amount gets the [amount_usd] of the same digits
    written without them. *)
Theorem cents_amount_is_read_as_its_digits (s : string) :
  is_cent (Some s) = true ->
  str_forallb is_digit (strip_non_numeric s) = true
  /\ amount_usd_cell (Some s) = amount_usd_cell (Some (strip_non_numeric s))
  /\ (strip_non_numeric s <> EmptyString ->
      amount_usd_cell (Some s)
      = Ok (truediv (float_of_decimal (digits_value (strip_non_numeric s)) 0)
              (float_of_Z 100))).
Proof.
  intros Hcent.
  assert (Hnopoint : contains "." s = false).
  { unfold is_cent in Hcent. destruct (String.eqb s EmptyString); [discriminate |].
    destruct (contains "." s); [discriminate | reflexivity]. }
  pose proof (strip_without_point_is_digits s
                (no_char_of_contains_false "." s Hnopoint)) as Hdigits.
  split; [exact Hdigits |].
  set (ds := strip_non_numeric s) in *.
  assert (Hstrip : strip_non_numeric ds = ds).
  { apply str_filter_all. apply (str_forallb_impl is_digit); [| exact Hdigits].
    intros c Hc. unfold is_numeric_char. rewrite Hc. reflexivity. }
  assert (Hparsed : parsed_amount (Some s) = parsed_amount (Some ds)).
  { unfold parsed_amount. rewrite !numeral_of_stripped. cbn [astype_str].
    fold ds. rewrite Hstrip. reflexivity. }
  destruct (String.eqb_spec ds EmptyString) as [Hempty | Hnempty].
  - split; [| intros H; contradiction].
    unfold amount_usd_cell. rewrite Hparsed. cbn [astype_str].
    unfold parsed_amount. rewrite numeral_of_stripped. cbn [astype_str].
    rewrite Hstrip, Hempty. cbn [replace_empty String.eqb bind_result].
    destruct (is_cent (Some s)), (is_cent (Some EmptyString)); reflexivity.
  - assert (Hcell : amount_usd_cell (Some s)
                    = Ok (truediv (float_of_decimal (digits_value ds) 0)
                            (float_of_Z 100))).
    { unfold amount_usd_cell. rewrite Hparsed. unfold parsed_amount.
      rewrite numeral_of_stripped. cbn [astype_str]. rewrite Hstrip.
      unfold replace_empty. apply String.eqb_neq in Hnempty. rewrite Hnempty.
      apply String.eqb_neq in Hnempty.
      rewrite (py_float_digits ds Hdigits Hnempty). cbn [bind_result].
      rewrite Hcent. reflexivity. }
    split; [| intros _; exact Hcell].
    rewrite Hcell. unfold amount_usd_cell, parsed_amount.
    rewrite numeral_of_stripped. cbn [astype_str]. rewrite Hstrip.
    unfold replace_empty. apply String.eqb_neq in Hnempty. rewrite Hnempty.
    apply String.eqb_neq in Hnempty.
    rewrite (py_float_digits ds Hdigits Hnempty). cbn [bind_result].
    rewrite (is_cent_digits ds Hdigits Hnempty). reflexivity.
Qed.

Lemma cents_amount_is_read_as_its_digits_witness :
  is_cent (Some "1,000") = true
  /\ strip_non_numeric "1,000" = "1000"
  /\ amount_usd_cell (Some "1,000") = amount_usd_cell (Some "1000")
  /\ amount_usd_cell (Some "1,000") = Ok (float_of_Z 10).
Proof.
  split; [reflexivity |]. split; [reflexivity |].
  destruct (cents_amount_is_read_as_its_digits "1,000" eq_refl) as (_ & H & _).
  split; [exact H | reflexivity].
Defined.

(* ===================================================================== *)
(** * The classification of a missing amount *)
(* ===================================================================== *)

(** C4 at a purchase without an amount.  [is_cent] answers [False] for a
    missing value, but [normalize_amount] hands it the column after
    [astype(str)], where the missing amount is the string ["None"]: the row
    is classified as cents and counted as such in the log, and its NaN is
    then divided by 100 with the cents amounts. *)
Theorem missing_amount_is_classified_as_cents :
  is_cent None = false
  /\ opt_bind (fst (getting_relevant_data [event_without_amount])) pd_DataFrame
     = Some [(0%nat, row_without_amount)]
  /\ amount row_without_amount = None
  /\ amount_column [(0%nat, row_without_amount)] = ["None"]
  /\ cents_rep [(0%nat, row_without_amount)] = [true]
  /\ amount_usd_column [(0%nat, row_without_amount)]
     = Ok [truediv nan (float_of_Z 100)]
  /\ normalize_amount [(0%nat, row_without_amount)]
     = (Ok [],
        [ (INFO,
           "Identified 1 records in amount column that appear to be in cents format.");
          (INFO,
           "Normalized amount column by dividing by 100 for records identified as cents.");
          (INFO,
           "Dropped invalid rows where amount_usd is less than or equal to zero or NaN.") ])
  /\ exists log,
       main [event_without_amount] = Some (Ok [], log)
       /\ In (INFO,
              "Identified 1 records in amount column that appear to be in cents format.")
             log.
Proof.
  repeat (split; [reflexivity |]).
  eexists. split; [reflexivity |].
  right. left. reflexivity.
Qed.
